(** * tokenQL explorer: the transport-dispatching fetcher and the
      cursor-to-operation resolver of [src/App.js]

    The development is a shallow embedding of the two pieces of original
    logic of [src/App.js]:

    - [isSubscription], [getSinkFromArgs] and [fetcher] (lines 18-85);
    - [_handleInspectOperation] (lines 126-167).

    External collaborators ([parse] of graphql-js, [JSON.parse],
    [JSON.stringify], [fetch], the CodeMirror instance, [document]) are
    section variables: the theorems hold for every behaviour of theirs that
    has the stated type.  Effects (console output, the stateless request,
    the registration on the duplex channel, calls of observer callbacks,
    DOM lookups) are recorded in a trace, in execution order. *)

From Stdlib Require Import List ZArith NArith Bool Lia.
From Stdlib Require Import Strings.String Strings.Ascii Numbers.DecimalString.
Import ListNotations.

Set Warnings "-register-all".
Open Scope string_scope.
Open Scope list_scope.

(** ** JavaScript values *)

Module Js.

(** An instance of [Error] (or of a subclass such as graphql-js's
    [GraphQLError]): its [name] and its [message]. *)
Record JsError : Type := mkError {
  name : string;
  message : string
}.

(** [new Error(msg)] *)
Definition new_Error (msg : string) : JsError :=
  {| name := "Error"; message := msg |}.

(** [TypeError], raised by a property read on [null]/[undefined] and by a
    call of a value that is not a function. *)
Definition TypeError (msg : string) : JsError :=
  {| name := "TypeError"; message := msg |}.

(** Values handed to [subscribe] by its caller.  A function is known by an
    identifier; calling it is recorded in the trace. *)
Inductive JsValue : Type :=
| VUndefined
| VNull
| VBool (b : bool)
| VNumber (z : Z)
| VString (s : string)
| VFunction (f : string)
| VObject (props : list (string * JsValue)).

(** [typeof v] *)
Definition typeof (v : JsValue) : string :=
  match v with
  | VUndefined => "undefined"
  | VNull => "object"
  | VBool _ => "boolean"
  | VNumber _ => "number"
  | VString _ => "string"
  | VFunction _ => "function"
  | VObject _ => "object"
  end.

(** A string is truthy exactly when it is not empty. *)
Definition truthy_string (s : string) : bool :=
  match s with
  | EmptyString => false
  | String _ _ => true
  end.

(** [ToBoolean v] *)
Definition truthy (v : JsValue) : bool :=
  match v with
  | VUndefined | VNull => false
  | VBool b => b
  | VNumber z => negb (Z.eqb z 0)
  | VString s => truthy_string s
  | VFunction _ | VObject _ => true
  end.

(** [args[i]]: an index past the end of an array reads [undefined]. *)
Definition index (args : list JsValue) (i : nat) : JsValue :=
  nth i args VUndefined.

(** Own-property lookup in an object literal. *)
Fixpoint lookup (props : list (string * JsValue)) (key : string) : option JsValue :=
  match props with
  | [] => None
  | (k, v) :: rest => if String.eqb k key then Some v else lookup rest key
  end.

(** An object with numeric [start] and [end] fields.  The source reads
    these two fields of three kinds of object: the [loc] of a graphql-js
    node, a CodeMirror token, and its own [relevantMousePos]. *)
Record Span : Type := mkSpan {
  start : Z;
  end_ : Z
}.

(** Results of JSON.parse, numbers kept to the integers (the fetcher never
    looks inside a value).  The raw response text, when it is returned in
    place of a parsed value, is the JavaScript string [JString body]. *)
Inductive JSONValue : Type :=
| JNull
| JBool (b : bool)
| JNumber (z : Z)
| JString (s : string)
| JArray (items : list JSONValue)
| JObject (members : list (string * JSONValue)).

(** The decimal rendering of a non-negative integer, as a template literal
    interpolates it. *)
Definition toString (n : N) : string :=
  NilZero.string_of_uint (N.to_uint n).

(** [s.includes(sub)] *)
Fixpoint includes (s sub : string) : bool :=
  String.prefix sub s ||
  match s with
  | EmptyString => false
  | String _ rest => includes rest sub
  end.

(** [xs.join(sep)] on an array of strings. *)
Definition join (sep : string) (xs : list string) : string :=
  String.concat sep xs.

(** A completion: a value, or a thrown error. *)
Inductive Completion (A : Type) : Type :=
| Normal (a : A)
| Throw (e : JsError).
Arguments Normal {A} a.
Arguments Throw {A} e.

(** A promise, observed once it has settled. *)
Inductive Promise (A : Type) : Type :=
| Fulfilled (a : A)
| Rejected (reason : JsError).
Arguments Fulfilled {A} a.
Arguments Rejected {A} reason.

(** [p.then(f)] where [f] returns a promise (a returned promise is
    flattened); a rejection skips [f]. *)
Definition then_ {A B : Type} (p : Promise A) (f : A -> Promise B) : Promise B :=
  match p with
  | Fulfilled a => f a
  | Rejected r => Rejected r
  end.

End Js.
Import Js.

(** ** The graphql-js document model *)

Module Graphql.

Inductive OperationType : Type := OpQuery | OpMutation | OpSubscription.

(** The string stored in the [operation] field of an operation definition. *)
Definition operation_string (o : OperationType) : string :=
  match o with
  | OpQuery => "query"
  | OpMutation => "mutation"
  | OpSubscription => "subscription"
  end.

(** [loc] of a node: character offsets into the document text ([end] is a
    keyword of Rocq, hence [end_]). *)
Definition Location : Type := Span.

Record NameNode : Type := mkName {
  value : string
}.

(** The [kind] of a top-level definition.  An operation definition carries
    its [operation] field; all the type-system definitions that graphql-js
    parses are kept with their kind string. *)
Inductive DefinitionKind : Type :=
| OperationDefinition (operation : OperationType)
| FragmentDefinition
| TypeSystemDefinition (kind_name : string).

Record DefinitionNode : Type := mkDef {
  kind : DefinitionKind;
  name : option NameNode;
  loc : option Location
}.

Record DocumentNode : Type := mkDoc {
  definitions : list DefinitionNode
}.

Definition is_operation (d : DefinitionNode) : bool :=
  match kind d with
  | OperationDefinition _ => true
  | _ => false
  end.

(** [definition.name?.value === operationName] *)
Definition name_is (d : DefinitionNode) (operationName : string) : bool :=
  match name d with
  | Some n => String.eqb (value n) operationName
  | None => false
  end.

(** The loop of graphql-js's [getOperationAST] (imported at App.js line 6;
    the text below is the library's, releases 15 and 16), with the local
    variable [operation] as an accumulator and an absent [operationName]
    as [None]:
<<
  let operation = null;
  for (const definition of documentAST.definitions) {
    if (definition.kind === Kind.OPERATION_DEFINITION) {
      if (operationName == null) {
        if (operation) { return null; }
        operation = definition;
      } else if (definition.name?.value === operationName) {
        return definition;
      }
    }
  }
  return operation;
>> *)
Fixpoint getOperationAST_loop (defs : list DefinitionNode)
    (operationName : option string) (operation : option DefinitionNode)
    : option DefinitionNode :=
  match defs with
  | [] => operation
  | definition :: rest =>
      if is_operation definition then
        match operationName with
        | None =>
            match operation with
            | Some _ => None
            | None => getOperationAST_loop rest operationName (Some definition)
            end
        | Some n =>
            if name_is definition n then Some definition
            else getOperationAST_loop rest operationName operation
        end
      else getOperationAST_loop rest operationName operation
  end.

Definition getOperationAST (documentAST : DocumentNode)
    (operationName : option string) : option DefinitionNode :=
  getOperationAST_loop (definitions documentAST) operationName None.

(** The number of operation definitions of a document. *)
Definition count_operations (doc : DocumentNode) : nat :=
  List.length (filter is_operation (definitions doc)).

End Graphql.
Import Graphql.

(** ** Effects and the trace monad *)

Module Eff.

(** The argument of the fetcher (GraphiQL's [FetcherParams]). *)
Record FetcherParams : Type := mkParams {
  query : string;
  operationName : option string;
  variables : option JSONValue
}.

(** The second argument of [fetch]. *)
Record RequestInit : Type := mkInit {
  method : string;
  headers : list (string * string);
  body : string
}.

(** The object handed to [subscriptionsClient.subscribe] at lines 42-61:
    [next] and [complete] are the values read from the sink, [error] is the
    arrow function of lines 46-60, known by the [sink] it closes over. *)
Record Handlers : Type := mkHandlers {
  next : JsValue;
  complete : JsValue;
  error : JsValue
}.

(** What a callback is called with. *)
Inductive CallbackArg : Type :=
| ArgNone
| ArgResult (r : JSONValue)
| ArgError (e : JsError).

Inductive Effect : Type :=
| HttpFetch (url : string) (init : RequestInit)
| ClientSubscribe (payload : FetcherParams) (h : Handlers)
| Invoke (f : string) (arg : CallbackArg)
| ConsoleLog (msg : string)
| ConsoleError (msg : string)
| QuerySelector (selector : string)
| ScrollIntoView (selector : string).

(** A computation: the effects it performed, in order, and how it ended. *)
Definition M (A : Type) : Type := (list Effect * Completion A)%type.

Definition ret {A : Type} (a : A) : M A := ([], Normal a).

Definition throw {A : Type} (e : JsError) : M A := ([], Throw e).

Definition lift {A : Type} (c : Completion A) : M A := ([], c).

Definition emit (ev : Effect) : M unit := ([ev], Normal tt).

Definition bind {A B : Type} (m : M A) (k : A -> M B) : M B :=
  match m with
  | (t, Normal a) => (t ++ fst (k a), snd (k a))
  | (t, Throw e) => (t, Throw e)
  end.

Definition trace {A : Type} (m : M A) : list Effect := fst m.

Definition outcome {A : Type} (m : M A) : Completion A := snd m.

Declare Scope eff_scope.
Delimit Scope eff_scope with eff.
Notation "x <- m ;; k" := (bind m (fun x => k))
  (at level 61, m at next level, right associativity) : eff_scope.
Notation "m ;; k" := (bind m (fun _ => k))
  (at level 61, right associativity) : eff_scope.

(** The transports a trace touched. *)
Definition is_fetch (ev : Effect) : bool :=
  match ev with HttpFetch _ _ => true | _ => false end.

Definition is_subscribe (ev : Effect) : bool :=
  match ev with ClientSubscribe _ _ => true | _ => false end.

Definition is_transport (ev : Effect) : bool :=
  is_fetch ev || is_subscribe ev.

End Eff.
Import Eff.
Open Scope eff_scope.

(** ** The transport dispatcher (App.js lines 15-85) *)

Module Dispatcher.

Definition queryUrl : string := "https://tokenql-256gb.hasura.app/v1/graphql".

(** The url [subscriptionsClient] is created with (line 16). *)
Definition subscriptionsUrl : string := "wss://api.tokenql-256gb.com/v1/graphql".

(** What [fetch] resolves with; [text] is the promise [response.text()]
    returns. *)
Record Response : Type := mkResponse {
  text : Promise string
}.

(** A server-reported error object [{ message, ... }]. *)
Record ErrorObject : Type := mkErrorObject {
  message : string
}.

(** What graphql-ws hands to the [error] handler of a subscription: an
    [Error], a [CloseEvent], or an array of server-reported errors. *)
Inductive ChannelFailure : Type :=
| ErrorInstance (err : JsError)
| CloseEventInstance (code : N) (reason : string)
| ErrorArray (errs : list ErrorObject).

(** What the duplex channel reports for one subscription. *)
Inductive ChannelEvent : Type :=
| Message (result : JSONValue)
| Completed
| Failed (err : ChannelFailure).

(** What [fetcher] returns: the object [{ subscribe }] of lines 39-64, whose
    method closes over [params], or the promise of lines 66-83. *)
Inductive FetcherReturn : Type :=
| Subscribable (params : FetcherParams)
| ResponsePromise (p : Promise JSONValue).

(** What [subscribe] returns: [{ unsubscribe }], the function the client
    returned for the registration of [payload]. *)
Inductive StreamHandle : Type :=
| Unsubscribe (payload : FetcherParams).

(** [operation.operation === "subscription"]; the field is [undefined] on
    a node that is not an operation definition. *)
Definition operation_is (node : DefinitionNode) (s : string) : bool :=
  match kind node with
  | OperationDefinition o => String.eqb (operation_string o) s
  | _ => false
  end.

(** [function getSinkFromArgs(args)], lines 24-33.  The record of the
    second branch is an object literal. *)
Definition getSinkFromArgs (args : list JsValue) : JsValue :=
  if String.eqb (typeof (index args 0)) "object" then index args 0
  else VObject [("next", index args 0);
                ("complete", index args 1);
                ("error", index args 2)].

(** [v.key] for the keys [next], [complete] and [error]: a read on [null]
    or [undefined] throws a [TypeError], a missing property reads
    [undefined], and so does a read on a primitive or on a function. *)
Definition get (v : JsValue) (key : string) : Completion JsValue :=
  match v with
  | VUndefined => Throw (TypeError "Cannot read properties of undefined")
  | VNull => Throw (TypeError "Cannot read properties of null")
  | VObject props =>
      Normal (match lookup props key with Some x => x | None => VUndefined end)
  | _ => Normal VUndefined
  end.

(** [f(arg)]: the call of a function is recorded (the callback is assumed to
    return normally); the call of anything else throws a [TypeError]. *)
Definition call (f : JsValue) (arg : CallbackArg) : M unit :=
  match f with
  | VFunction id => emit (Invoke id arg)
  | _ => throw (TypeError "not a function")
  end.

(** The argument of [new Error] at lines 52-54.  [+] binds tighter than
    [? :], so the condition of the conditional is the whole concatenation
    [`Socket closed with event ${err.code}` + err.reason]. *)
Definition closeEventMessage (code : N) (reason : string) : string :=
  if truthy_string (("Socket closed with event " ++ toString code) ++ reason)%string
  then (": " ++ reason)%string
  else "".

(** The arrow function [(err) => { ... }] of lines 46-60, closed over
    [sink]. *)
Definition errorHandler (sink : JsValue) (err : ChannelFailure) : M unit :=
  match err with
  | ErrorInstance e =>
      f <- lift (get sink "error") ;;
      call f (ArgError e)
  | CloseEventInstance code reason =>
      f <- lift (get sink "error") ;;
      call f (ArgError (new_Error (closeEventMessage code reason)))
  | ErrorArray errs =>
      f <- lift (get sink "error") ;;
      call f (ArgError (new_Error (join ", " (map message errs))))
  end.

(** The arrow function [(...args) => { ... }] of lines 40-63, closed over
    [params]. *)
Definition subscribe (params : FetcherParams) (args : list JsValue) : M StreamHandle :=
  let sink := getSinkFromArgs args in
  n <- lift (get sink "next") ;;
  c <- lift (get sink "complete") ;;
  let handlers := {| next := n; complete := c; error := sink |} in
  emit (ClientSubscribe params handlers) ;;
  ret (Unsubscribe params).

(** How the client uses the handlers it was given: one call per event. *)
Definition deliver (h : Handlers) (ev : ChannelEvent) : M unit :=
  match ev with
  | Message result => call (next h) (ArgResult result)
  | Completed => call (complete h) ArgNone
  | Failed err => errorHandler (error h) err
  end.

(** The events of a channel, delivered in receipt order. *)
Fixpoint deliver_all (h : Handlers) (evs : list ChannelEvent) : M unit :=
  match evs with
  | [] => ret tt
  | ev :: rest => deliver h ev ;; deliver_all h rest
  end.

Section WithEnvironment.

(** graphql-js's [parse]: a document, or a thrown syntax error. *)
Variable parse : string -> Completion DocumentNode.

(** [JSON.parse]: a value, or a thrown [SyntaxError]. *)
Variable JSON_parse : string -> Completion JSONValue.

(** [JSON.stringify] on the fetcher's argument. *)
Variable JSON_stringify : FetcherParams -> string.

(** The network: what [fetch(url, init)] settles with. *)
Variable fetch : string -> RequestInit -> Promise Response.

(** [function isSubscription({ query, operationName })], lines 18-22.  The
    value of [operation && e] is [operation] itself when it is [null]. *)
Definition isSubscription (params : FetcherParams) : Completion JsValue :=
  match parse (query params) with
  | Throw e => Throw e
  | Normal node =>
      let operation := getOperationAST node (operationName params) in
      match operation with
      | None => Normal VNull
      | Some op => Normal (VBool (operation_is op "subscription"))
      end
  end.

(** The second argument of [fetch] at lines 66-73. *)
Definition requestInit (params : FetcherParams) : RequestInit :=
  {| method := "POST";
     headers := [("Accept", "application/json");
                 ("Content-Type", "application/json")];
     body := JSON_stringify params |}.

(** [function(response) { return response.text(); }], lines 74-76. *)
Definition onResponse (response : Response) : Promise string :=
  text response.

(** [function(responseBody) { try ... catch ... }], lines 77-83. *)
Definition onResponseBody (responseBody : string) : Promise JSONValue :=
  match JSON_parse responseBody with
  | Normal v => Fulfilled v
  | Throw _ => Fulfilled (JString responseBody)
  end.

(** The promise of lines 66-83: [fetch(...).then(...).then(...)]. *)
Definition responsePromise (params : FetcherParams) : Promise JSONValue :=
  then_ (then_ (fetch queryUrl (requestInit params)) onResponse) onResponseBody.

(** [export function fetcher(params)], lines 36-85. *)
Definition fetcher (params : FetcherParams) : M FetcherReturn :=
  b <- lift (isSubscription params) ;;
  if truthy b then
    ret (Subscribable params)
  else
    emit (HttpFetch queryUrl (requestInit params)) ;;
    ret (ResponsePromise (responsePromise params)).

End WithEnvironment.

End Dispatcher.

(** ** The cursor-to-operation resolver (App.js lines 126-167) *)

Module Resolver.

(** A CodeMirror position [{ line, ch }]. *)
Record Pos : Type := mkPos {
  line : Z;
  ch : Z
}.

(** The callback of [find], lines 144-152, closed over [position]. *)
Definition containsPosition (position : Span) (definition : DefinitionNode) : M bool :=
  match loc definition with
  | None =>
      emit (ConsoleLog "Missing location information for definition") ;;
      ret false
  | Some l =>
      ret ((start l <=? start position)%Z && (end_ l >=? end_ position)%Z)
  end.

(** [Array.prototype.find]: the callback is called on the elements in
    order, up to the first one it accepts. *)
Fixpoint find (defs : list DefinitionNode) (callback : DefinitionNode -> M bool)
    : M (option DefinitionNode) :=
  match defs with
  | [] => ret None
  | definition :: rest =>
      b <- callback definition ;;
      if b then ret (Some definition) else find rest callback
  end.

(** [var operationKind = ...], line 159. *)
Definition operationKind (def : DefinitionNode) : string :=
  match kind def with
  | OperationDefinition operation => operation_string operation
  | FragmentDefinition => "fragment"
  | TypeSystemDefinition _ => "unknown"
  end.

(** [var operationName = ...], line 161. *)
Definition operationName (def : DefinitionNode) : string :=
  match kind def, Graphql.name def with
  | OperationDefinition _, Some n => value n
  | FragmentDefinition, Some n => value n
  | _, _ => "unknown"
  end.

(** The pair the selector of line 163 is built from. *)
Definition identifier (def : DefinitionNode) : string * string :=
  (operationKind def, operationName def).

(** [var selector = ...], line 163. *)
Definition selector (def : DefinitionNode) : string :=
  (".graphiql-explorer-root #" ++ operationKind def ++ "-" ++ operationName def)%string.

(** An object is truthy, whatever it holds. *)
Definition truthy_document (parsedQuery : DocumentNode) : bool := true.

Section WithEnvironment.

(** graphql-js's [parse]: a document, or a thrown syntax error. *)
Variable parse : string -> Completion DocumentNode.

(** [cm.getTokenAt] and [cm.indexFromPos] of the CodeMirror instance. *)
Variable getTokenAt : Pos -> Span.
Variable indexFromPos : Pos -> Z.

(** [document.querySelector]: whether an element matches the selector. *)
Variable querySelector : string -> bool.

(** [var relevantMousePos = ...], lines 134-140. *)
Definition relevantMousePos (mousePos : Pos) : Span :=
  let token := getTokenAt mousePos in
  let start_pos := {| line := line mousePos; ch := start token |} in
  let end_pos := {| line := line mousePos; ch := end_ token |} in
  {| start := indexFromPos start_pos; end_ := indexFromPos end_pos |}.

(** Lines 159-166, once [def] is found. *)
Definition scrollTo (def : DefinitionNode) : M JsValue :=
  emit (QuerySelector (selector def)) ;;
  (if querySelector (selector def)
   then emit (ScrollIntoView (selector def))
   else ret tt) ;;
  ret VUndefined.

(** [_handleInspectOperation = (cm, mousePos) => { ... }], lines 126-167,
    with [this.state.query] as [state_query]. *)
Definition _handleInspectOperation (state_query : string) (mousePos : Pos) : M JsValue :=
  parsedQuery <- lift (parse (if truthy_string state_query then state_query else "")) ;;
  if negb (truthy_document parsedQuery) then
    emit (ConsoleError "Couldn't parse query document") ;;
    ret VNull
  else
    let position := relevantMousePos mousePos in
    def <- find (definitions parsedQuery) (containsPosition position) ;;
    match def with
    | None =>
        emit (ConsoleError "Unable to find definition corresponding to mouse position") ;;
        ret VNull
    | Some def => scrollTo def
    end.

End WithEnvironment.

End Resolver.

(** ** Notions the statements are written with *)

Module Notions.

Import Dispatcher.

(** A computation fails with an error of the given name. *)
Definition fails_with {A : Type} (error_name : string) (m : M A) : Prop :=
  exists e, outcome m = Throw e /\ Js.name e = error_name.

(** The transports a dispatch touched, in order. *)
Definition transports {A : Type} (m : M A) : list Effect :=
  filter is_transport (trace m).

Inductive Transport : Type := Stateless | Duplex.

(** The transport a dispatch chose, if it chose one. *)
Definition transport_of (m : M FetcherReturn) : option Transport :=
  match outcome m with
  | Normal (Subscribable _) => Some Duplex
  | Normal (ResponsePromise _) => Some Stateless
  | Throw _ => None
  end.

(** The handlers a computation registered on the duplex channel. *)
Fixpoint handlers_registered (t : list Effect) : list Handlers :=
  match t with
  | [] => []
  | ClientSubscribe _ h :: rest => h :: handlers_registered rest
  | _ :: rest => handlers_registered rest
  end.


(** The span of [definition] fully contains [position]; a definition
    without span information contains nothing. *)
Definition contains (position : Span) (definition : DefinitionNode) : bool :=
  match loc definition with
  | Some l => (start l <=? start position)%Z && (end_ position <=? end_ l)%Z
  | None => false
  end.

Definition lacks_loc (definition : DefinitionNode) : bool :=
  match loc definition with
  | Some _ => false
  | None => true
  end.

(** The elements a left-to-right scan looks at: all of them up to and
    including the first one that satisfies [p]. *)
Fixpoint scanned {A : Type} (p : A -> bool) (l : list A) : list A :=
  match l with
  | [] => []
  | x :: rest => if p x then [x] else x :: scanned p rest
  end.

(** The name of a definition when present, ["unknown"] otherwise. *)
Definition name_or_unknown (n : option NameNode) : string :=
  match n with
  | Some x => value x
  | None => "unknown"
  end.

Definition missing_location : Effect :=
  ConsoleLog "Missing location information for definition".

Definition not_found : Effect :=
  ConsoleError "Unable to find definition corresponding to mouse position".

Definition couldnt_parse : Effect :=
  ConsoleError "Couldn't parse query document".

End Notions.
Import Notions.

(** ** Sample inputs *)

Module Samples.

Import Dispatcher.

(** The double quote character, as a string. *)
Definition dq : string := String (ascii_of_nat 34) EmptyString.

Definition named (o : OperationType) (n : string) (s e : Z) : DefinitionNode :=
  {| kind := OperationDefinition o;
     Graphql.name := Some {| value := n |};
     loc := Some {| start := s; end_ := e |} |}.

(** Two operations, at the spans [0,20) and [21,40). *)
Definition two_operations_text : string :=
  "query A { aaaaaaaa } query B { bbbbbbb }".

Definition two_operations : DocumentNode :=
  {| definitions := [named OpQuery "A" 0 20; named OpQuery "B" 21 40] |}.

Definition one_query_text : string := "query Q { q }".

Definition one_query : DocumentNode :=
  {| definitions := [named OpQuery "Q" 0 13] |}.

Definition one_subscription_text : string := "subscription S { s }".

Definition one_subscription : DocumentNode :=
  {| definitions := [named OpSubscription "S" 0 20] |}.

(** An unterminated selection set. *)
Definition broken_text : string := "{".

Definition syntax_error : JsError :=
  {| Js.name := "GraphQLError";
     Js.message := "Syntax Error: Expected Name, found <EOF>." |}.

(** A [parse] that answers as graphql-js does on the sample texts; any other
    text is answered with the syntax error. *)
Definition sample_parse (text : string) : Completion DocumentNode :=
  if String.eqb text two_operations_text then Normal two_operations
  else if String.eqb text one_query_text then Normal one_query
  else if String.eqb text one_subscription_text then Normal one_subscription
  else Throw syntax_error.

(** The body [{"data":{"x":1}}]. *)
Definition structured_body : string :=
  ("{" ++ dq ++ "data" ++ dq ++ ":{" ++ dq ++ "x" ++ dq ++ ":1}}")%string.

Definition structured_value : JSONValue :=
  JObject [("data", JObject [("x", JNumber 1)])].

Definition json_syntax_error : JsError :=
  {| Js.name := "SyntaxError"; Js.message := "Unexpected token" |}.

(** A [JSON.parse] that answers as the platform does on [structured_body];
    any other text is answered with a [SyntaxError]. *)
Definition sample_JSON_parse (text : string) : Completion JSONValue :=
  if String.eqb text structured_body then Normal structured_value
  else Throw json_syntax_error.

(** A [JSON.stringify] that keeps the query text only. *)
Definition sample_JSON_stringify (params : FetcherParams) : string :=
  query params.

(** A network that answers every request with the same body. *)
Definition network (responseBody : string) (url : string) (init : RequestInit)
    : Promise Response :=
  Fulfilled {| text := Fulfilled responseBody |}.

Definition request (text : string) (n : option string) : FetcherParams :=
  {| query := text; operationName := n; variables := None |}.

(** An observer given as an object, its fields in another order than the
    positional form builds them. *)
Definition observer_object : JsValue :=
  VObject [("error", VFunction "onError");
           ("next", VFunction "onNext");
           ("complete", VFunction "onComplete")].

Definition observer_positional : list JsValue :=
  [VFunction "onNext"; VFunction "onComplete"; VFunction "onError"].

(** An editor whose token under the cursor spans the columns 25 to 30 of a
    single-line document. *)
Definition sample_getTokenAt (p : Resolver.Pos) : Span :=
  {| start := 25; end_ := 30 |}.

Definition sample_indexFromPos (p : Resolver.Pos) : Z := Resolver.ch p.

Definition sample_querySelector (s : string) : bool := true.

Definition click : Resolver.Pos := {| Resolver.line := 0; Resolver.ch := 27 |}.

(** The fetcher in the sample environment, the network answering with
    [responseBody]. *)
Definition sample_fetcher (responseBody : string) (params : FetcherParams)
    : M FetcherReturn :=
  fetcher sample_parse sample_JSON_parse sample_JSON_stringify
          (network responseBody) params.

(** The two-operation document, sent without an operation name. *)
Definition ambiguous_request : FetcherParams :=
  request two_operations_text None.

Definition raw_body : string := "not json".

(** The resolver in the sample environment. *)
Definition sample_handler (state_query : string) (mousePos : Resolver.Pos) : M JsValue :=
  Resolver._handleInspectOperation sample_parse sample_getTokenAt
    sample_indexFromPos sample_querySelector state_query mousePos.

(** A fragment and an anonymous query, the latter without location. *)
Definition fragment_F : DefinitionNode :=
  {| kind := FragmentDefinition;
     Graphql.name := Some {| value := "F" |};
     loc := Some {| start := 0; end_ := 20 |} |}.

Definition anonymous_query : DefinitionNode :=
  {| kind := OperationDefinition OpQuery; Graphql.name := None; loc := None |}.

End Samples.

(** ** The component: its state, its handlers and its mounting
       (App.js lines 87-124 and 169-173) *)

Module App.

Import Dispatcher.

Definition newline : string := String (ascii_of_nat 10) EmptyString.

(** [const DEFAULT_QUERY], lines 87-100. *)
Definition DEFAULT_QUERY : string :=
  (newline ++
   "query MyQuery {" ++ newline ++
   "  Ethereum_Mainnet_ERC721(limit: 10) {" ++ newline ++
   "    address" ++ newline ++
   "    balance" ++ newline ++
   "    contract" ++ newline ++
   "    id" ++ newline ++
   "    name" ++ newline ++
   "    symbol" ++ newline ++
   "    tokenId" ++ newline ++
   "    tokenURI" ++ newline ++
   "  }" ++ newline ++
   "}" ++ newline)%string.

(** A schema object; the component only stores it.  It is known by the
    introspection data it was built from. *)
Inductive GraphQLSchema : Type :=
| ClientSchema (introspection : JSONValue).

(** [type State], lines 102-106. *)
Record State : Type := mkState {
  schema : option GraphQLSchema;
  query : string;
  explorerIsOpen : bool
}.

(** [state = { schema: null, query: DEFAULT_QUERY, explorerIsOpen: true }],
    line 110. *)
Definition initial_state : State :=
  {| schema := None; query := DEFAULT_QUERY; explorerIsOpen := true |}.

(** The argument of [setState]: the fields it names. *)
Record Patch : Type := mkPatch {
  patch_schema : option GraphQLSchema;
  patch_query : option string;
  patch_explorerIsOpen : option bool
}.

(** [this.setState(patch)], once React has applied it: the fields the patch
    names replace those of the state, the others stay. *)
Definition setState (this_state : State) (patch : Patch) : State :=
  {| schema := match patch_schema patch with
               | Some s => Some s
               | None => schema this_state
               end;
     query := match patch_query patch with
              | Some q => q
              | None => query this_state
              end;
     explorerIsOpen := match patch_explorerIsOpen patch with
                       | Some b => b
                       | None => explorerIsOpen this_state
                       end |}.

(** [_handleEditQuery = (query) => this.setState({ query })], line 169. *)
Definition _handleEditQuery (new_query : string) (this_state : State) : State :=
  setState this_state
    {| patch_schema := None; patch_query := Some new_query;
       patch_explorerIsOpen := None |}.

(** [_handleToggleExplorer], lines 171-173. *)
Definition _handleToggleExplorer (this_state : State) : State :=
  setState this_state
    {| patch_schema := None; patch_query := None;
       patch_explorerIsOpen := Some (negb (explorerIsOpen this_state)) |}.

(** A key map of the editor: the handler bound to each key, a handler
    being known by its name. *)
Definition Keymap : Type := string -> option string.

(** [{}] *)
Definition empty_keymap : Keymap := fun _ => None.

(** [{ ...keys, [key]: handler }] *)
Definition spread_with (keys : Keymap) (key handler : string) : Keymap :=
  fun k => if String.eqb k key then Some handler else keys k.

(** What the component owns: its state and the [extraKeys] option of its
    query editor ([None] when the option is not set). *)
Record Component : Type := mkComponent {
  state : State;
  extraKeys : option Keymap
}.

(** [result.data]: a read on [null] throws, an object gives its member or
    [undefined], any other value gives [undefined].  The members of an
    object are its own properties, one entry for each key. *)
Fixpoint member (members : list (string * JSONValue)) (key : string) : option JSONValue :=
  match members with
  | [] => None
  | (k, v) :: rest => if String.eqb k key then Some v else member rest key
  end.

Definition get_data (result : JSONValue) : Completion (option JSONValue) :=
  match result with
  | JNull => Throw (TypeError "Cannot read properties of null")
  | JObject members => Normal (member members "data")
  | _ => Normal None
  end.

(** What [componentDidMount] leaves behind: the transport effects of its
    call of the fetcher, the component, and either the exception it threw
    or the promise [.then] returned. *)
Record Mounted : Type := mkMounted {
  requests : list Effect;
  component : Component;
  settled : Completion (Promise unit)
}.

Section WithEnvironment.

Variable parse : string -> Completion DocumentNode.
Variable JSON_parse : string -> Completion JSONValue.
Variable JSON_stringify : FetcherParams -> string.
Variable fetch : string -> RequestInit -> Promise Response.

(** The text [getIntrospectionQuery()] returns. *)
Variable introspectionQuery : string.

(** graphql-js's [buildClientSchema], on [undefined] ([None]) or on a
    value: a schema, or a thrown error. *)
Variable buildClientSchema : option JSONValue -> Completion GraphQLSchema.

(** The argument of the fetcher at lines 113-115. *)
Definition introspectionParams : FetcherParams :=
  {| Eff.query := introspectionQuery; operationName := None; variables := None |}.

(** The callback [(result) => { ... }] of lines 115-123.  The GraphiQL
    instance and its query editor are taken to be there when it runs. *)
Definition onIntrospection (result : JSONValue) (c : Component)
    : Component * Completion unit :=
  let keys := match extraKeys c with
              | Some k => k
              | None => empty_keymap
              end in
  let c1 := {| state := state c;
               extraKeys := Some (spread_with keys "Shift-Alt-LeftClick"
                                              "_handleInspectOperation") |} in
  match get_data result with
  | Throw e => (c1, Throw e)
  | Normal data =>
      match buildClientSchema data with
      | Throw e => (c1, Throw e)
      | Normal s =>
          ({| state := setState (state c1)
                         {| patch_schema := Some s; patch_query := None;
                            patch_explorerIsOpen := None |};
              extraKeys := extraKeys c1 |},
           Normal tt)
      end
  end.

(** [componentDidMount()], lines 112-124.  An object without a [then]
    method cannot be called on; a rejected promise skips the callback; an
    exception of the callback rejects the promise [.then] returned. *)
Definition componentDidMount (c : Component) : Mounted :=
  match fetcher parse JSON_parse JSON_stringify fetch introspectionParams with
  | (t, Throw e) =>
      {| requests := t; component := c; settled := Throw e |}
  | (t, Normal (Subscribable _)) =>
      {| requests := t; component := c;
         settled := Throw (TypeError "then is not a function") |}
  | (t, Normal (ResponsePromise (Rejected r))) =>
      {| requests := t; component := c; settled := Normal (Rejected r) |}
  | (t, Normal (ResponsePromise (Fulfilled result))) =>
      match onIntrospection result c with
      | (c', Normal _) =>
          {| requests := t; component := c'; settled := Normal (Fulfilled tt) |}
      | (c', Throw e) =>
          {| requests := t; component := c'; settled := Normal (Rejected e) |}
      end
  end.

End WithEnvironment.

End App.

(** ** Further notions *)

Module MoreNotions.

Import Dispatcher.

(** The operation definitions named [n]. *)
Definition named_operation (n : string) (d : DefinitionNode) : bool :=
  is_operation d && name_is d n.

(** The test of [isSubscription] on the operation found, if any. *)
Definition subscription_found (operation : option DefinitionNode) : bool :=
  match operation with
  | Some op => operation_is op "subscription"
  | None => false
  end.

(** What the fetcher does with a request on the duplex path. *)
Definition duplex (params : FetcherParams) : M FetcherReturn :=
  ([], Normal (Subscribable params)).

(** Two definitions whose spans do not overlap; a definition without
    location overlaps nothing. *)
Definition apart (a b : DefinitionNode) : Prop :=
  match loc a, loc b with
  | Some la, Some lb => (end_ la <= start lb)%Z \/ (end_ lb <= start la)%Z
  | _, _ => True
  end.

(** The DOM effects of a trace. *)
Definition is_dom (ev : Effect) : bool :=
  match ev with
  | QuerySelector _ | ScrollIntoView _ => true
  | _ => false
  end.

(** The strings [operationKind] can take. *)
Definition kind_strings : list string :=
  ["query"; "mutation"; "subscription"; "fragment"; "unknown"].

End MoreNotions.
Import MoreNotions.

(** ** Further sample inputs *)

Module MoreSamples.

Import Dispatcher Samples.

Definition mixed_text : string := "query A { a } subscription B { b }".

(** A query and a subscription. *)
Definition mixed : DocumentNode :=
  {| definitions := [named OpQuery "A" 0 13; named OpSubscription "B" 14 34] |}.

(** A [parse] that knows [mixed_text] beside the texts of [sample_parse]. *)
Definition sample_parse_more (text : string) : Completion DocumentNode :=
  if String.eqb text mixed_text then Normal mixed else sample_parse text.

Definition network_down : JsError :=
  {| Js.name := "TypeError"; Js.message := "Failed to fetch" |}.

(** A network that rejects every request. *)
Definition unreachable (url : string) (init : RequestInit) : Promise Response :=
  Rejected network_down.

Definition introspection_value : JSONValue :=
  JObject [("__schema", JObject [])].

(** A [buildClientSchema] that accepts every value and throws on
    [undefined]. *)
Definition sample_buildClientSchema (data : option JSONValue)
    : Completion App.GraphQLSchema :=
  match data with
  | Some v => Normal (App.ClientSchema v)
  | None =>
      Throw {| Js.name := "Error";
               Js.message := "Invalid or incomplete introspection result." |}
  end.

(** An editor which already binds one key. *)
Definition bound_keys : App.Keymap :=
  fun k => if String.eqb k "Ctrl-Space" then Some "autocomplete" else None.

Definition fresh_component : App.Component :=
  {| App.state := App.initial_state; App.extraKeys := Some bound_keys |}.

(** Mounting in the sample environment, the network answering
    [responseBody] to the introspection request [one_query_text]. *)
Definition sample_mount (responseBody : string) : App.Mounted :=
  App.componentDidMount sample_parse sample_JSON_parse sample_JSON_stringify
    (network responseBody) one_query_text sample_buildClientSchema
    fresh_component.

(** Handlers for an observer with a [next] callback only. *)
Definition next_only : Handlers :=
  {| next := VFunction "onNext"; complete := VUndefined;
     error := getSinkFromArgs [VFunction "onNext"] |}.

End MoreSamples.

(** ** Sample inputs for requests that differ in their operation name *)

Module NameSamples.

Import Dispatcher Samples.




End NameSamples.

(** * Properties *)

(** ** Operation lookup *)

Module Lookup.

Lemma count_cons (d : DefinitionNode) (rest : list DefinitionNode) :
  List.length (filter is_operation (d :: rest)) =
  ((if is_operation d then 1 else 0) + List.length (filter is_operation rest))%nat.
Proof.
  simpl. destruct (is_operation d); reflexivity.
Qed.



(** With no name asked for, an operation met while one is already held
    makes the loop return [null]. *)
Lemma loop_second_operation (defs : list DefinitionNode) (held : DefinitionNode) :
  (1 <= List.length (filter is_operation defs))%nat ->
  getOperationAST_loop defs None (Some held) = None.
Proof.
  induction defs as [|d rest IH]; intros Hcount; [simpl in Hcount; lia|].
  rewrite count_cons in Hcount. simpl.
  destruct (is_operation d); [reflexivity|].
  apply IH. simpl in Hcount. exact Hcount.
Qed.

Lemma loop_two_operations (defs : list DefinitionNode) :
  (2 <= List.length (filter is_operation defs))%nat ->
  getOperationAST_loop defs None None = None.
Proof.
  induction defs as [|d rest IH]; intros Hcount; [simpl in Hcount; lia|].
  rewrite count_cons in Hcount. simpl.
  destruct (is_operation d).
  - apply loop_second_operation. simpl in Hcount. lia.
  - apply IH. simpl in Hcount. exact Hcount.
Qed.




End Lookup.

(** ** The trace monad *)

Module EffFacts.

Lemma bind_lift_normal {A B : Type} (a : A) (k : A -> M B) :
  bind (lift (Normal a)) k = k a.
Proof.
  unfold bind, lift. simpl. destruct (k a). reflexivity.
Qed.

Lemma bind_lift_throw {A B : Type} (e : JsError) (k : A -> M B) :
  bind (lift (Throw e)) k = ([], Throw e).
Proof.
  reflexivity.
Qed.

Lemma bind_normal {A B : Type} (t : list Effect) (a : A) (k : A -> M B) :
  bind (t, Normal a) k = (t ++ trace (k a), outcome (k a)).
Proof.
  reflexivity.
Qed.

Lemma bind_throw {A B : Type} (t : list Effect) (e : JsError) (k : A -> M B) :
  bind (t, Throw e) k = (t, Throw e).
Proof.
  reflexivity.
Qed.

End EffFacts.

(** ** The dispatcher: classification and the stateless path *)

Module DispatchFacts.

Import Dispatcher Samples EffFacts.

Section WithEnvironment.

Variable parse : string -> Completion DocumentNode.
Variable JSON_parse : string -> Completion JSONValue.
Variable JSON_stringify : FetcherParams -> string.
Variable fetch : string -> RequestInit -> Promise Response.

(** A request that is not classified as a subscription is sent once over
    the stateless transport. *)
Lemma fetcher_stateless (params : FetcherParams) (b : JsValue) :
  isSubscription parse params = Normal b -> truthy b = false ->
  fetcher parse JSON_parse JSON_stringify fetch params =
    ([HttpFetch queryUrl (requestInit JSON_stringify params)],
     Normal (ResponsePromise (responsePromise JSON_parse JSON_stringify fetch params))).
Proof.
  intros Hsub Hfalsy. unfold fetcher.
  rewrite Hsub, bind_lift_normal, Hfalsy. reflexivity.
Qed.

(** A request classified as a subscription touches no transport until
    [subscribe] is called. *)
Lemma fetcher_subscribable (params : FetcherParams) (b : JsValue) :
  isSubscription parse params = Normal b -> truthy b = true ->
  fetcher parse JSON_parse JSON_stringify fetch params =
    ([], Normal (Subscribable params)).
Proof.
  intros Hsub Htruthy. unfold fetcher.
  rewrite Hsub, bind_lift_normal, Htruthy. reflexivity.
Qed.

(** C1, as amended.  When the document of a request parses to two or more
    operation definitions and no operation name is given, the operation
    lookup yields [null], the request is classified as not a subscription,
    and the fetcher does not fail: it returns a promise after issuing
    exactly one stateless request, with nothing registered on the duplex
    channel. *)
Theorem fetcher_unnamed_among_several (params : FetcherParams) (doc : DocumentNode) :
  parse (query params) = Normal doc ->
  (2 <= count_operations doc)%nat ->
  operationName params = None ->
  getOperationAST doc (operationName params) = None /\
  isSubscription parse params = Normal VNull /\
  fetcher parse JSON_parse JSON_stringify fetch params =
    ([HttpFetch queryUrl (requestInit JSON_stringify params)],
     Normal (ResponsePromise (responsePromise JSON_parse JSON_stringify fetch params))) /\
  transports (fetcher parse JSON_parse JSON_stringify fetch params) =
    [HttpFetch queryUrl (requestInit JSON_stringify params)] /\
  ~ fails_with "AmbiguousOperationError" (fetcher parse JSON_parse JSON_stringify fetch params).
Proof.
  intros Hparse Hcount Hname.
  assert (Hlookup : getOperationAST doc (operationName params) = None).
  { rewrite Hname. apply Lookup.loop_two_operations. exact Hcount. }
  assert (Hsub : isSubscription parse params = Normal VNull).
  { unfold isSubscription. rewrite Hparse, Hlookup. reflexivity. }
  assert (Hfetch := fetcher_stateless params VNull Hsub eq_refl).
  repeat split; try assumption.
  - unfold transports. rewrite Hfetch. reflexivity.
  - intros [e [Hthrow _]]. rewrite Hfetch in Hthrow. discriminate.
Qed.

(** C8.  When the document text of a request fails to parse, the fetcher
    throws the parse error to its caller, and its trace is empty: no
    stateless request is issued and nothing is registered on the duplex
    channel. *)
Theorem parse_failure_attempts_no_transport (params : FetcherParams) (e : JsError) :
  parse (query params) = Throw e ->
  isSubscription parse params = Throw e /\
  fetcher parse JSON_parse JSON_stringify fetch params = ([], Throw e) /\
  transports (fetcher parse JSON_parse JSON_stringify fetch params) = [].
Proof.
  intros Hparse.
  assert (Hsub : isSubscription parse params = Throw e).
  { unfold isSubscription. rewrite Hparse. reflexivity. }
  assert (Hfetch : fetcher parse JSON_parse JSON_stringify fetch params = ([], Throw e)).
  { unfold fetcher. rewrite Hsub. apply bind_lift_throw. }
  repeat split; try assumption.
  unfold transports. rewrite Hfetch. reflexivity.
Qed.

(** C3.  For a request whose operation is a query or a mutation, once the
    response body has arrived as text, the promise the fetcher returned is
    fulfilled, never rejected: with the parsed value when the body parses
    as JSON, with the body text itself when parsing throws. *)
Theorem stateless_body_parsed_or_degraded (params : FetcherParams)
    (doc : DocumentNode) (op : DefinitionNode) (o : OperationType)
    (response : Response) (responseBody : string) :
  parse (query params) = Normal doc ->
  getOperationAST doc (operationName params) = Some op ->
  kind op = OperationDefinition o ->
  o = OpQuery \/ o = OpMutation ->
  fetch queryUrl (requestInit JSON_stringify params) = Fulfilled response ->
  text response = Fulfilled responseBody ->
  exists result,
    fetcher parse JSON_parse JSON_stringify fetch params =
      ([HttpFetch queryUrl (requestInit JSON_stringify params)],
       Normal (ResponsePromise (Fulfilled result))) /\
    (forall v, JSON_parse responseBody = Normal v -> result = v) /\
    (forall e, JSON_parse responseBody = Throw e -> result = JString responseBody).
Proof.
  intros Hparse Hlookup Hkind Hop Hfetch Htext.
  assert (Hsub : isSubscription parse params = Normal (VBool false)).
  { unfold isSubscription. rewrite Hparse, Hlookup.
    unfold operation_is. rewrite Hkind.
    destruct Hop as [-> | ->]; reflexivity. }
  rewrite (fetcher_stateless params _ Hsub eq_refl).
  unfold responsePromise. rewrite Hfetch.
  unfold then_ at 2. unfold onResponse. rewrite Htext.
  unfold then_, onResponseBody.
  destruct (JSON_parse responseBody) as [v | e] eqn:Hjson.
  - exists v. repeat split; intros; congruence.
  - exists (JString responseBody). repeat split; intros; congruence.
Qed.


End WithEnvironment.

End DispatchFacts.

(** ** The dispatcher on the sample requests *)

Module DispatchExamples.

Import Dispatcher Samples DispatchFacts.

(** The claim C1 as the specification words it fails on the two-operation
    sample: its document parses, holds two operations and comes without an
    operation name, yet the fetcher does not fail with
    [AmbiguousOperationError]; it returns a promise and the request goes out
    on the stateless transport. *)
Lemma ambiguous_request_is_sent :
  sample_parse (query ambiguous_request) = Normal two_operations /\
  count_operations two_operations = 2%nat /\
  operationName ambiguous_request = None /\
  ~ fails_with "AmbiguousOperationError"
      (sample_fetcher structured_body ambiguous_request) /\
  outcome (sample_fetcher structured_body ambiguous_request) =
    Normal (ResponsePromise (Fulfilled structured_value)) /\
  transports (sample_fetcher structured_body ambiguous_request) =
    [HttpFetch queryUrl (requestInit sample_JSON_stringify ambiguous_request)].
Proof.
  repeat split; try reflexivity.
  intros [e [Hthrow _]]. vm_compute in Hthrow. discriminate.
Qed.

Lemma fetcher_unnamed_among_several_witness :
  sample_parse (query ambiguous_request) = Normal two_operations /\
  (2 <= count_operations two_operations)%nat /\
  operationName ambiguous_request = None /\
  isSubscription sample_parse ambiguous_request = Normal VNull /\
  transports (sample_fetcher structured_body ambiguous_request) =
    [HttpFetch queryUrl (requestInit sample_JSON_stringify ambiguous_request)].
Proof.
  assert (Hparse : sample_parse (query ambiguous_request) = Normal two_operations)
    by reflexivity.
  assert (Hcount : (2 <= count_operations two_operations)%nat)
    by (vm_compute; apply le_n).
  assert (Hname : operationName ambiguous_request = None) by reflexivity.
  destruct (fetcher_unnamed_among_several sample_parse sample_JSON_parse
              sample_JSON_stringify (network structured_body)
              ambiguous_request two_operations Hparse Hcount Hname)
    as [_ [Hsub [_ [Htransports _]]]].
  repeat split; assumption.
Defined.

Lemma parse_failure_attempts_no_transport_witness :
  sample_parse (query (request broken_text None)) = Throw syntax_error /\
  sample_fetcher structured_body (request broken_text None) = ([], Throw syntax_error) /\
  transports (sample_fetcher structured_body (request broken_text None)) = [].
Proof.
  assert (Hparse : sample_parse (query (request broken_text None)) = Throw syntax_error)
    by reflexivity.
  destruct (parse_failure_attempts_no_transport sample_parse sample_JSON_parse
              sample_JSON_stringify (network structured_body)
              (request broken_text None) syntax_error Hparse)
    as [_ [Hfetch Htransports]].
  repeat split; assumption.
Defined.

Lemma stateless_body_parsed_or_degraded_witness :
  (exists result,
     sample_fetcher structured_body (request one_query_text None) =
       ([HttpFetch queryUrl
           (requestInit sample_JSON_stringify (request one_query_text None))],
        Normal (ResponsePromise (Fulfilled result))) /\
     (forall v, sample_JSON_parse structured_body = Normal v -> result = v) /\
     (forall e, sample_JSON_parse structured_body = Throw e ->
                result = JString structured_body)) /\
  (exists result,
     sample_fetcher raw_body (request one_query_text None) =
       ([HttpFetch queryUrl
           (requestInit sample_JSON_stringify (request one_query_text None))],
        Normal (ResponsePromise (Fulfilled result))) /\
     (forall v, sample_JSON_parse raw_body = Normal v -> result = v) /\
     (forall e, sample_JSON_parse raw_body = Throw e ->
                result = JString raw_body)).
Proof.
  split.
  - apply (stateless_body_parsed_or_degraded sample_parse sample_JSON_parse
             sample_JSON_stringify (network structured_body)
             (request one_query_text None) one_query (named OpQuery "Q" 0 13)
             OpQuery {| text := Fulfilled structured_body |} structured_body);
      try reflexivity.
    left; reflexivity.
  - apply (stateless_body_parsed_or_degraded sample_parse sample_JSON_parse
             sample_JSON_stringify (network raw_body)
             (request one_query_text None) one_query (named OpQuery "Q" 0 13)
             OpQuery {| text := Fulfilled raw_body |} raw_body);
      try reflexivity.
    left; reflexivity.
Defined.

(** The two bodies of the specification's example. *)
Example structured_body_yields_value :
  outcome (sample_fetcher structured_body (request one_query_text None)) =
    Normal (ResponsePromise (Fulfilled (JObject [("data", JObject [("x", JNumber 1)])]))).
Proof. reflexivity. Qed.

Example raw_body_yields_text :
  outcome (sample_fetcher raw_body (request one_query_text None)) =
    Normal (ResponsePromise (Fulfilled (JString "not json"))).
Proof. reflexivity. Qed.



(** The single operation, a subscription, is dispatched on the duplex path
    with or without its name; a single query goes stateless both ways. *)
Example single_subscription_either_way :
  transport_of (sample_fetcher structured_body (request one_subscription_text None)) = Some Duplex /\
  transport_of (sample_fetcher structured_body (request one_subscription_text (Some "S"))) = Some Duplex /\
  transport_of (sample_fetcher structured_body (request one_query_text None)) = Some Stateless /\
  transport_of (sample_fetcher structured_body (request one_query_text (Some "Q"))) = Some Stateless.
Proof. repeat split; reflexivity. Qed.

End DispatchExamples.

(** ** The subscription path: the observer and the channel failures *)

Module ObserverFacts.

Import Dispatcher Samples.

(** What [deliver] does depends on the handlers only through the two
    callbacks and the [error] property of the sink. *)
Lemma deliver_ext (h1 h2 : Handlers) (ev : ChannelEvent) :
  next h1 = next h2 ->
  complete h1 = complete h2 ->
  get (error h1) "error" = get (error h2) "error" ->
  deliver h1 ev = deliver h2 ev.
Proof.
  intros Hnext Hcomplete Herror.
  destruct ev as [result | | err]; simpl.
  - rewrite Hnext. reflexivity.
  - rewrite Hcomplete. reflexivity.
  - destruct err; simpl; rewrite Herror; reflexivity.
Qed.

Lemma deliver_all_ext (h1 h2 : Handlers) (evs : list ChannelEvent) :
  next h1 = next h2 ->
  complete h1 = complete h2 ->
  get (error h1) "error" = get (error h2) "error" ->
  deliver_all h1 evs = deliver_all h2 evs.
Proof.
  intros Hnext Hcomplete Herror.
  induction evs as [|ev rest IH]; [reflexivity|].
  simpl. rewrite IH.
  rewrite (deliver_ext h1 h2 ev Hnext Hcomplete Herror). reflexivity.
Qed.

(** A sink whose [error] property is the function [f] gets [f] called with
    the error handed over. *)
Lemma forward_to_error (sink : JsValue) (f : string) (e : JsError) :
  get sink "error" = Normal (VFunction f) ->
  bind (lift (get sink "error")) (fun g => call g (ArgError e)) =
    ([Invoke f (ArgError e)], Normal tt).
Proof.
  intros Hget. rewrite Hget. reflexivity.
Qed.

(** C2, on the code.  The message built for a connection-closure event is
    a colon, a space and the reason, whatever the code and the reason: the
    closure code never appears in it and the colon segment is there for an
    empty reason too.  A closure with code 1006 and reason "abnormal" is
    forwarded as [Error(": abnormal")], which does not contain "1006". *)
Theorem closeEventMessage_omits_code :
  (forall code reason, closeEventMessage code reason = (": " ++ reason)%string) /\
  closeEventMessage 1006 "abnormal" = ": abnormal" /\
  includes (closeEventMessage 1006 "abnormal") "abnormal" = true /\
  includes (closeEventMessage 1006 "abnormal") "1006" = false /\
  closeEventMessage 1006 "" = ": " /\
  deliver {| next := VFunction "onNext"; complete := VFunction "onComplete";
             error := observer_object |}
          (Failed (CloseEventInstance 1006 "abnormal")) =
    ([Invoke "onError" (ArgError (new_Error ": abnormal"))], Normal tt).
Proof.
  repeat split; reflexivity.
Qed.

(** The closure code is rendered into the condition of the conditional,
    which is all the code does with it. *)
Example close_condition_holds_code :
  toString 1006 = "1006" /\
  (("Socket closed with event " ++ toString 1006) ++ "abnormal")%string =
    "Socket closed with event 1006abnormal" /\
  truthy_string (("Socket closed with event " ++ toString 1006) ++ "")%string = true.
Proof. repeat split; reflexivity. Qed.

(** C6.  An observer given as three positional callbacks and an observer
    given as one object with the same three fields make [subscribe] register
    handlers with the same [next], the same [complete] and the same [error]
    callback, so every sequence of channel events is delivered by the same
    calls. *)
Theorem observer_forms_agree (params : FetcherParams) (fn : string)
    (c e : JsValue) (props : list (string * JsValue)) :
  lookup props "next" = Some (VFunction fn) ->
  lookup props "complete" = Some c ->
  lookup props "error" = Some e ->
  exists h1 h2,
    subscribe params [VFunction fn; c; e] =
      ([ClientSubscribe params h1], Normal (Unsubscribe params)) /\
    subscribe params [VObject props] =
      ([ClientSubscribe params h2], Normal (Unsubscribe params)) /\
    (next h1 = VFunction fn /\ complete h1 = c /\ get (error h1) "error" = Normal e) /\
    (next h2 = VFunction fn /\ complete h2 = c /\ get (error h2) "error" = Normal e) /\
    forall evs, deliver_all h1 evs = deliver_all h2 evs.
Proof.
  intros Hnext Hcomplete Herror.
  exists {| next := VFunction fn; complete := c;
            error := getSinkFromArgs [VFunction fn; c; e] |}.
  exists {| next := VFunction fn; complete := c; error := VObject props |}.
  assert (Hobj : subscribe params [VObject props] =
                 ([ClientSubscribe params
                     {| next := VFunction fn; complete := c; error := VObject props |}],
                  Normal (Unsubscribe params))).
  { unfold subscribe, getSinkFromArgs, get. simpl.
    rewrite Hnext, Hcomplete. reflexivity. }
  assert (Hget : get (VObject props) "error" = Normal e).
  { unfold get. rewrite Herror. reflexivity. }
  split; [reflexivity|]. split; [exact Hobj|].
  split; [split; [reflexivity | split; reflexivity]|].
  split; [split; [reflexivity | split; [reflexivity | exact Hget]]|].
  intros evs. apply deliver_all_ext; simpl; try reflexivity.
  rewrite Herror. reflexivity.
Qed.

Lemma observer_forms_agree_witness :
  lookup [("error", VFunction "onError"); ("next", VFunction "onNext");
          ("complete", VFunction "onComplete")] "next" = Some (VFunction "onNext") /\
  exists h1 h2,
    subscribe (request one_subscription_text None) observer_positional =
      ([ClientSubscribe (request one_subscription_text None) h1],
       Normal (Unsubscribe (request one_subscription_text None))) /\
    subscribe (request one_subscription_text None) [observer_object] =
      ([ClientSubscribe (request one_subscription_text None) h2],
       Normal (Unsubscribe (request one_subscription_text None))) /\
    forall evs, deliver_all h1 evs = deliver_all h2 evs.
Proof.
  split; [reflexivity|].
  destruct (observer_forms_agree (request one_subscription_text None)
              "onNext" (VFunction "onComplete") (VFunction "onError")
              [("error", VFunction "onError"); ("next", VFunction "onNext");
               ("complete", VFunction "onComplete")]
              eq_refl eq_refl eq_refl)
    as [h1 [h2 [Hpos [Hobj [_ [_ Hsame]]]]]].
  exists h1, h2. repeat split; assumption.
Defined.

(** Both forms deliver a message, a completion and a failure alike. *)
Example observer_forms_same_calls :
  forall h1 h2,
    trace (subscribe (request one_subscription_text None) observer_positional) =
      [ClientSubscribe (request one_subscription_text None) h1] ->
    trace (subscribe (request one_subscription_text None) [observer_object]) =
      [ClientSubscribe (request one_subscription_text None) h2] ->
    deliver_all h1 [Message JNull; Failed (ErrorInstance (new_Error "lost")); Completed] =
      ([Invoke "onNext" (ArgResult JNull);
        Invoke "onError" (ArgError (new_Error "lost"));
        Invoke "onComplete" ArgNone], Normal tt) /\
    deliver_all h2 [Message JNull; Failed (ErrorInstance (new_Error "lost")); Completed] =
      ([Invoke "onNext" (ArgResult JNull);
        Invoke "onError" (ArgError (new_Error "lost"));
        Invoke "onComplete" ArgNone], Normal tt).
Proof.
  intros h1 h2 H1 H2. vm_compute in H1, H2.
  injection H1 as <-. injection H2 as <-. split; reflexivity.
Qed.

(** C7.  For handlers whose sink has the function [f] as its [error]
    property: a channel failure that is an [Error] is handed to [f] as it
    is, and a failure that is an array of server-reported error objects is
    handed to [f] as one new [Error] whose message is the messages of the
    objects, in array order, joined with a comma and a space. *)
Theorem channel_failure_forwarding (h : Handlers) (f : string) :
  get (error h) "error" = Normal (VFunction f) ->
  (forall err,
     deliver h (Failed (ErrorInstance err)) = ([Invoke f (ArgError err)], Normal tt)) /\
  (forall errs,
     deliver h (Failed (ErrorArray errs)) =
       ([Invoke f (ArgError (new_Error (String.concat ", " (map message errs))))],
        Normal tt)) /\
  (forall m1 m2 ms,
     String.concat ", " (map message (mkErrorObject m1 :: mkErrorObject m2 :: ms)) =
       (m1 ++ ", " ++ String.concat ", " (map message (mkErrorObject m2 :: ms)))%string).
Proof.
  intros Hget. repeat split.
  - intros err. simpl. apply forward_to_error. exact Hget.
  - intros errs. simpl. apply forward_to_error. exact Hget.
Qed.

Lemma channel_failure_forwarding_witness :
  get observer_object "error" = Normal (VFunction "onError") /\
  deliver {| next := VFunction "onNext"; complete := VFunction "onComplete";
             error := observer_object |}
          (Failed (ErrorInstance (new_Error "lost"))) =
    ([Invoke "onError" (ArgError (new_Error "lost"))], Normal tt) /\
  deliver {| next := VFunction "onNext"; complete := VFunction "onComplete";
             error := observer_object |}
          (Failed (ErrorArray [mkErrorObject "a"; mkErrorObject "b"; mkErrorObject "c"])) =
    ([Invoke "onError" (ArgError (new_Error "a, b, c"))], Normal tt).
Proof.
  assert (Hget : get observer_object "error" = Normal (VFunction "onError"))
    by reflexivity.
  destruct (channel_failure_forwarding
              {| next := VFunction "onNext"; complete := VFunction "onComplete";
                 error := observer_object |} "onError" Hget)
    as [Hnative [Harray _]].
  split; [exact Hget|]. split.
  - apply Hnative.
  - apply (Harray [mkErrorObject "a"; mkErrorObject "b"; mkErrorObject "c"]).
Defined.

End ObserverFacts.

(** ** The resolver *)

Module ResolverFacts.

Import Resolver Samples.

(** The callback of [find] answers as [contains], and logs exactly when the
    definition has no location. *)
Lemma containsPosition_spec (position : Span) (d : DefinitionNode) :
  containsPosition position d =
    ((if lacks_loc d then [missing_location] else []), Normal (contains position d)).
Proof.
  unfold containsPosition, contains, lacks_loc.
  destruct (loc d) as [l|]; [|reflexivity].
  unfold ret. rewrite Z.geb_leb. reflexivity.
Qed.

(** A definition without location is never accepted. *)
Lemma lacks_loc_not_contained (position : Span) (d : DefinitionNode) :
  lacks_loc d && contains position d = false.
Proof.
  unfold lacks_loc, contains. destruct (loc d); reflexivity.
Qed.

(** The scan of [find]: its result is the first accepted definition, and it
    logs once for each definition without location it went over. *)
Lemma find_spec (defs : list DefinitionNode) (position : Span) :
  find defs (containsPosition position) =
    (map (fun _ => missing_location)
         (filter lacks_loc (scanned (contains position) defs)),
     Normal (List.find (contains position) defs)).
Proof.
  induction defs as [|d rest IH]; [reflexivity|].
  simpl. rewrite containsPosition_spec. unfold bind.
  pose proof (lacks_loc_not_contained position d) as Hexcl.
  destruct (contains position d) eqn:Hc.
  - rewrite andb_true_r in Hexcl. simpl. rewrite Hexcl. reflexivity.
  - rewrite IH. simpl. destruct (lacks_loc d); reflexivity.
Qed.

(** What [List.find] returns is the first element accepted. *)
Lemma find_first {A : Type} (p : A -> bool) (l : list A) (x : A) :
  List.find p l = Some x ->
  exists before after,
    l = before ++ x :: after /\ p x = true /\
    Forall (fun y => p y = false) before.
Proof.
  induction l as [|a rest IH]; intros Hfind; [discriminate|].
  simpl in Hfind. destruct (p a) eqn:Hpa.
  - injection Hfind as <-. exists [], rest. repeat split; [exact Hpa | constructor].
  - destruct (IH Hfind) as [before [after [Heq [Hpx Hbefore]]]].
    exists (a :: before), after. subst rest.
    repeat split; [exact Hpx | constructor; assumption].
Qed.

Lemma find_nothing {A : Type} (p : A -> bool) (l : list A) :
  List.find p l = None -> Forall (fun y => p y = false) l.
Proof.
  intros Hfind. apply Forall_forall. intros y Hy.
  exact (find_none p l Hfind y Hy).
Qed.

(** A scan that accepts nothing goes over the whole list. *)
Lemma scanned_all {A : Type} (p : A -> bool) (l : list A) :
  List.find p l = None -> scanned p l = l.
Proof.
  induction l as [|a rest IH]; [reflexivity|].
  simpl. destruct (p a); [discriminate|].
  intros Hfind. rewrite (IH Hfind). reflexivity.
Qed.

Lemma contains_spans (position : Span) (d : DefinitionNode) :
  contains position d = true ->
  exists l, loc d = Some l /\
            (start l <= start position)%Z /\ (end_ position <= end_ l)%Z.
Proof.
  unfold contains. destruct (loc d) as [l|]; [|discriminate].
  intros H. apply andb_true_iff in H. destruct H as [Hs He].
  exists l. repeat split; [apply Z.leb_le, Hs | apply Z.leb_le, He].
Qed.

Section WithEnvironment.

Variable parse : string -> Completion DocumentNode.
Variable getTokenAt : Pos -> Span.
Variable indexFromPos : Pos -> Z.
Variable querySelector : string -> bool.

(** The handler once the document has parsed: the log of the scan, then
    either the miss or the DOM lookup for the definition found. *)
Lemma handler_after_parse (state_query : string) (mousePos : Pos) (doc : DocumentNode) :
  parse (if truthy_string state_query then state_query else "") = Normal doc ->
  _handleInspectOperation parse getTokenAt indexFromPos querySelector
      state_query mousePos =
    (map (fun _ => missing_location)
         (filter lacks_loc
            (scanned (contains (relevantMousePos getTokenAt indexFromPos mousePos))
                     (definitions doc))) ++
     match List.find (contains (relevantMousePos getTokenAt indexFromPos mousePos))
                     (definitions doc) with
     | Some def =>
         QuerySelector (selector def) ::
         (if querySelector (selector def) then [ScrollIntoView (selector def)] else [])
     | None => [not_found]
     end,
     Normal match List.find (contains (relevantMousePos getTokenAt indexFromPos mousePos))
                            (definitions doc) with
            | Some _ => VUndefined
            | None => VNull
            end).
Proof.
  intros Hparse. unfold _handleInspectOperation.
  rewrite Hparse, EffFacts.bind_lift_normal.
  change (negb (truthy_document doc)) with false. cbv iota.
  rewrite find_spec, EffFacts.bind_normal.
  destruct (List.find _ (definitions doc)) as [def|]; [|reflexivity].
  unfold scrollTo. destruct (querySelector (selector def)); reflexivity.
Qed.

(** C4.  The scan of the resolver goes over the top-level definitions in
    document order and returns the first one whose span contains the
    position ([start <= position.start] and [end >= position.end]), or
    nothing when none does; a definition without location is never returned
    and costs one diagnostic line, nothing else.  When nothing is found the
    handler logs the miss and returns [null] without a DOM lookup.  With
    operations at the spans [0,20) and [21,40), the position 25..30 selects
    the second operation and the position 50..55 selects nothing. *)
Theorem find_selects_first_containing (defs : list DefinitionNode) (position : Span) :
  find defs (containsPosition position) =
    (map (fun _ => missing_location)
         (filter lacks_loc (scanned (contains position) defs)),
     Normal (List.find (contains position) defs)) /\
  match List.find (contains position) defs with
  | Some def =>
      exists before after l,
        defs = before ++ def :: after /\
        loc def = Some l /\
        (start l <= start position)%Z /\ (end_ l >= end_ position)%Z /\
        Forall (fun d => contains position d = false) before
  | None => Forall (fun d => contains position d = false) defs
  end /\
  Forall (fun d => lacks_loc d && contains position d = false) defs /\
  (forall state_query mousePos,
     match parse (if truthy_string state_query then state_query else "") with
     | Normal doc =>
         match List.find (contains (relevantMousePos getTokenAt indexFromPos mousePos))
                         (definitions doc) with
         | Some def =>
             In (QuerySelector (selector def))
                (trace (_handleInspectOperation parse getTokenAt indexFromPos
                          querySelector state_query mousePos))
         | None =>
             _handleInspectOperation parse getTokenAt indexFromPos querySelector
                 state_query mousePos =
               (map (fun _ => missing_location)
                    (filter lacks_loc (definitions doc)) ++ [not_found],
                Normal VNull)
         end
     | Throw _ => True
     end) /\
  find (definitions two_operations) (containsPosition {| start := 25; end_ := 30 |}) =
    ([], Normal (Some (named OpQuery "B" 21 40))) /\
  find (definitions two_operations) (containsPosition {| start := 50; end_ := 55 |}) =
    ([], Normal None).
Proof.
  split; [apply find_spec|].
  split.
  { destruct (List.find (contains position) defs) as [def|] eqn:Hfind.
    - destruct (find_first _ _ _ Hfind) as [before [after [Heq [Hc Hbefore]]]].
      destruct (contains_spans position def Hc) as [l [Hloc [Hs He]]].
      exists before, after, l. repeat split; try assumption. lia.
    - apply find_nothing. exact Hfind. }
  split.
  { apply Forall_forall. intros d _. apply lacks_loc_not_contained. }
  split; [|split; reflexivity].
  intros state_query mousePos.
  destruct (parse (if truthy_string state_query then state_query else ""))
    as [doc|e] eqn:Hparse; [|exact I].
  rewrite (handler_after_parse state_query mousePos doc Hparse).
  destruct (List.find _ (definitions doc)) as [def|] eqn:Hfind.
  - unfold trace. simpl. apply in_or_app. right. left. reflexivity.
  - rewrite (scanned_all _ _ Hfind). reflexivity.
Qed.

(** C9.  For the definition the scan of the resolver found, the DOM lookup
    is made with the selector built from the pair (operation type, name)
    when it is an operation definition and ("fragment", name) when it is a
    fragment definition, the name being the definition's own when it has
    one and "unknown" otherwise. *)
Theorem identifier_of_found_definition (state_query : string) (mousePos : Pos)
    (doc : DocumentNode) (def : DefinitionNode) :
  parse (if truthy_string state_query then state_query else "") = Normal doc ->
  outcome (find (definitions doc)
             (containsPosition (relevantMousePos getTokenAt indexFromPos mousePos))) =
    Normal (Some def) ->
  (forall o, kind def = OperationDefinition o ->
             identifier def = (operation_string o, name_or_unknown (Graphql.name def))) /\
  (kind def = FragmentDefinition ->
   identifier def = ("fragment", name_or_unknown (Graphql.name def))) /\
  selector def =
    (".graphiql-explorer-root #" ++ fst (identifier def) ++ "-" ++ snd (identifier def))%string /\
  In (QuerySelector (selector def))
     (trace (_handleInspectOperation parse getTokenAt indexFromPos querySelector
               state_query mousePos)) /\
  outcome (_handleInspectOperation parse getTokenAt indexFromPos querySelector
             state_query mousePos) = Normal VUndefined.
Proof.
  intros Hparse Hfound.
  rewrite find_spec in Hfound. unfold outcome in Hfound. simpl in Hfound.
  injection Hfound as Hfind.
  split.
  { intros o Hkind. unfold identifier, operationKind, operationName.
    rewrite Hkind. destruct (Graphql.name def); reflexivity. }
  split.
  { intros Hkind. unfold identifier, operationKind, operationName.
    rewrite Hkind. destruct (Graphql.name def); reflexivity. }
  split; [reflexivity|].
  rewrite (handler_after_parse state_query mousePos doc Hparse), Hfind.
  split; [|reflexivity].
  unfold trace. simpl. apply in_or_app. right. left. reflexivity.
Qed.

(** C10.  The handler never logs "Couldn't parse query document": a parsed
    document is an object, hence truthy, and when [parse] throws the
    handler ends with that very exception, before anything is logged,
    instead of returning [null]. *)
Theorem couldnt_parse_branch_unreachable (state_query : string) (mousePos : Pos) :
  (forall doc, truthy_document doc = true) /\
  ~ In couldnt_parse
       (trace (_handleInspectOperation parse getTokenAt indexFromPos querySelector
                 state_query mousePos)) /\
  match parse (if truthy_string state_query then state_query else "") with
  | Throw e =>
      _handleInspectOperation parse getTokenAt indexFromPos querySelector
          state_query mousePos = ([], Throw e)
  | Normal doc =>
      exists v,
        outcome (_handleInspectOperation parse getTokenAt indexFromPos querySelector
                   state_query mousePos) = Normal v
  end.
Proof.
  split; [reflexivity|].
  destruct (parse (if truthy_string state_query then state_query else ""))
    as [doc|e] eqn:Hparse.
  - rewrite (handler_after_parse state_query mousePos doc Hparse).
    split; [|eexists; reflexivity].
    unfold trace. simpl. intros Hin.
    apply in_app_or in Hin. destruct Hin as [Hin | Hin].
    + apply in_map_iff in Hin. destruct Hin as [d [Heq _]]. discriminate.
    + destruct (List.find _ (definitions doc)) as [def|].
      * destruct Hin as [Heq | Hin]; [discriminate|].
        destruct (querySelector (selector def)); simpl in Hin;
          [destruct Hin as [Heq | []]; discriminate | contradiction].
      * destruct Hin as [Heq | []]. discriminate.
  - assert (Hthrow : _handleInspectOperation parse getTokenAt indexFromPos
                       querySelector state_query mousePos = ([], Throw e)).
    { unfold _handleInspectOperation. rewrite Hparse.
      apply EffFacts.bind_lift_throw. }
    rewrite Hthrow. split; [intros []|reflexivity].
Qed.

End WithEnvironment.

End ResolverFacts.

(** ** The resolver on the sample document *)

Module ResolverExamples.

Import Resolver Samples ResolverFacts.

Lemma identifier_of_found_definition_witness :
  sample_parse (if truthy_string two_operations_text then two_operations_text else "") =
    Normal two_operations /\
  outcome (find (definitions two_operations)
             (containsPosition
                (relevantMousePos sample_getTokenAt sample_indexFromPos click))) =
    Normal (Some (named OpQuery "B" 21 40)) /\
  identifier (named OpQuery "B" 21 40) = ("query", "B") /\
  selector (named OpQuery "B" 21 40) = ".graphiql-explorer-root #query-B" /\
  In (QuerySelector ".graphiql-explorer-root #query-B")
     (trace (sample_handler two_operations_text click)) /\
  outcome (sample_handler two_operations_text click) = Normal VUndefined.
Proof.
  assert (Hparse : sample_parse (if truthy_string two_operations_text
                                 then two_operations_text else "") =
                   Normal two_operations) by reflexivity.
  assert (Hfound : outcome (find (definitions two_operations)
                              (containsPosition
                                 (relevantMousePos sample_getTokenAt
                                    sample_indexFromPos click))) =
                   Normal (Some (named OpQuery "B" 21 40))) by reflexivity.
  destruct (identifier_of_found_definition sample_parse sample_getTokenAt
              sample_indexFromPos sample_querySelector
              two_operations_text click two_operations (named OpQuery "B" 21 40)
              Hparse Hfound)
    as [Hoperation [_ [Hselector [Hlookup Hreturn]]]].
  split; [exact Hparse|]. split; [exact Hfound|].
  split; [exact (Hoperation OpQuery eq_refl)|].
  split; [exact Hselector|].
  split; [exact Hlookup | exact Hreturn].
Defined.

(** A click in the second operation scrolls to its entry in the explorer. *)
Example click_in_second_operation :
  sample_handler two_operations_text click =
    ([QuerySelector ".graphiql-explorer-root #query-B";
      ScrollIntoView ".graphiql-explorer-root #query-B"],
     Normal VUndefined).
Proof. reflexivity. Qed.

(** Identifiers of a fragment, of an anonymous operation and of a
    type-system definition. *)
Example identifiers_by_kind :
  identifier fragment_F = ("fragment", "F") /\
  identifier anonymous_query = ("query", "unknown") /\
  identifier {| kind := TypeSystemDefinition "ObjectTypeDefinition";
                Graphql.name := Some {| value := "T" |};
                loc := None |} = ("unknown", "unknown").
Proof. repeat split; reflexivity. Qed.

(** A definition without location is passed over with one diagnostic line,
    also when the position lies where it would be. *)
Example missing_location_is_skipped :
  find [anonymous_query; fragment_F] (containsPosition {| start := 3; end_ := 5 |}) =
    ([missing_location], Normal (Some fragment_F)) /\
  find [anonymous_query] (containsPosition {| start := 3; end_ := 5 |}) =
    ([missing_location], Normal None).
Proof. split; reflexivity. Qed.

(** A text that does not parse: the handler ends with the syntax error. *)
Example broken_text_propagates :
  sample_handler broken_text click = ([], Throw syntax_error) /\
  sample_handler "" click = ([], Throw syntax_error).
Proof. split; reflexivity. Qed.

End ResolverExamples.

(** * Further properties *)

(** ** What the operation lookup returns *)

Module LookupMore.

(** Asked for a name, the loop returns the first operation definition of
    that name, or what it started with. *)
Lemma loop_named (defs : list DefinitionNode) (n : string)
    (acc : option DefinitionNode) :
  getOperationAST_loop defs (Some n) acc =
    match List.find (named_operation n) defs with
    | Some d => Some d
    | None => acc
    end.
Proof.
  induction defs as [|d rest IH]; [reflexivity|].
  simpl. unfold named_operation at 1.
  destruct (is_operation d); simpl; [|exact IH].
  destruct (name_is d n); [reflexivity | exact IH].
Qed.

(** Asked for no name while holding an operation, the loop keeps it only
    if no other operation follows. *)
Lemma loop_unnamed_held (defs : list DefinitionNode) (held : DefinitionNode) :
  getOperationAST_loop defs None (Some held) =
    match filter is_operation defs with
    | [] => Some held
    | _ :: _ => None
    end.
Proof.
  induction defs as [|d rest IH]; [reflexivity|].
  simpl. destruct (is_operation d); [reflexivity | exact IH].
Qed.

(** Asked for no name, the loop returns the operation of a list that has
    exactly one. *)
Lemma loop_unnamed (defs : list DefinitionNode) :
  getOperationAST_loop defs None None =
    match filter is_operation defs with
    | [op] => Some op
    | _ => None
    end.
Proof.
  induction defs as [|d rest IH]; [reflexivity|].
  simpl. destruct (is_operation d); [|exact IH].
  rewrite loop_unnamed_held. destruct (filter is_operation rest); reflexivity.
Qed.

End LookupMore.

(** ** The dispatcher: which transport, and when it fails *)

Module DispatchMore.

Import Dispatcher Samples MoreSamples EffFacts DispatchFacts.

Section WithEnvironment.

Variable parse : string -> Completion DocumentNode.
Variable JSON_parse : string -> Completion JSONValue.
Variable JSON_stringify : FetcherParams -> string.
Variable fetch : string -> RequestInit -> Promise Response.

(** Once the document has parsed, the fetcher is decided by the operation
    found. *)
Lemma fetcher_by_lookup (params : FetcherParams) (doc : DocumentNode) :
  parse (query params) = Normal doc ->
  fetcher parse JSON_parse JSON_stringify fetch params =
    if subscription_found (getOperationAST doc (operationName params))
    then duplex params
    else ([HttpFetch queryUrl (requestInit JSON_stringify params)],
          Normal (ResponsePromise
                    (responsePromise JSON_parse JSON_stringify fetch params))).
Proof.
  intros Hparse.
  destruct (getOperationAST doc (operationName params)) as [op|] eqn:Hlookup.
  - assert (Hsub : isSubscription parse params =
                   Normal (VBool (operation_is op "subscription"))).
    { unfold isSubscription. rewrite Hparse, Hlookup. reflexivity. }
    simpl. destruct (operation_is op "subscription") eqn:Hop.
    + apply (fetcher_subscribable parse JSON_parse JSON_stringify fetch params _ Hsub).
      reflexivity.
    + apply (fetcher_stateless parse JSON_parse JSON_stringify fetch params _ Hsub).
      reflexivity.
  - assert (Hsub : isSubscription parse params = Normal VNull).
    { unfold isSubscription. rewrite Hparse, Hlookup. reflexivity. }
    simpl.
    apply (fetcher_stateless parse JSON_parse JSON_stringify fetch params _ Hsub).
    reflexivity.
Qed.

(** X1.  A request that names its operation is dispatched by the first
    operation definition of that name in the document: over the duplex
    channel when that definition is a subscription, over the stateless
    transport when it is a query or a mutation and also when no operation
    definition has the name. *)
Theorem named_request_dispatch (params : FetcherParams) (doc : DocumentNode)
    (n : string) :
  parse (query params) = Normal doc ->
  operationName params = Some n ->
  getOperationAST doc (Some n) = List.find (named_operation n) (definitions doc) /\
  fetcher parse JSON_parse JSON_stringify fetch params =
    if subscription_found (List.find (named_operation n) (definitions doc))
    then duplex params
    else ([HttpFetch queryUrl (requestInit JSON_stringify params)],
          Normal (ResponsePromise
                    (responsePromise JSON_parse JSON_stringify fetch params))).
Proof.
  intros Hparse Hname.
  assert (Hlookup : getOperationAST doc (Some n) =
                    List.find (named_operation n) (definitions doc)).
  { unfold getOperationAST. rewrite LookupMore.loop_named.
    destruct (List.find (named_operation n) (definitions doc)); reflexivity. }
  split; [exact Hlookup|].
  rewrite (fetcher_by_lookup params doc Hparse), Hname, Hlookup. reflexivity.
Qed.

(** X2.  A request without an operation name goes over the duplex channel
    exactly when its document holds one operation definition and that one
    is a subscription; with no operation definition, or with several, or
    with a single query or mutation, it goes over the stateless
    transport. *)
Theorem unnamed_request_dispatch (params : FetcherParams) (doc : DocumentNode) :
  parse (query params) = Normal doc ->
  operationName params = None ->
  fetcher parse JSON_parse JSON_stringify fetch params =
    match filter is_operation (definitions doc) with
    | [op] =>
        if operation_is op "subscription"
        then duplex params
        else ([HttpFetch queryUrl (requestInit JSON_stringify params)],
              Normal (ResponsePromise
                        (responsePromise JSON_parse JSON_stringify fetch params)))
    | _ => ([HttpFetch queryUrl (requestInit JSON_stringify params)],
            Normal (ResponsePromise
                      (responsePromise JSON_parse JSON_stringify fetch params)))
    end.
Proof.
  intros Hparse Hname.
  rewrite (fetcher_by_lookup params doc Hparse), Hname.
  unfold getOperationAST. rewrite LookupMore.loop_unnamed.
  destruct (filter is_operation (definitions doc)) as [|op [|op' rest]];
    reflexivity.
Qed.

(** X3.  The fetcher throws exactly when [parse] throws, and then the
    same error; in every case it issues at most one transport action, and
    the object it returns for a subscription carries the request itself,
    with no transport touched yet. *)
Theorem fetcher_throws_only_on_parse (params : FetcherParams) :
  (forall e,
     outcome (fetcher parse JSON_parse JSON_stringify fetch params) = Throw e <->
     parse (query params) = Throw e) /\
  (List.length (transports (fetcher parse JSON_parse JSON_stringify fetch params)) <= 1)%nat /\
  (forall p,
     outcome (fetcher parse JSON_parse JSON_stringify fetch params) =
       Normal (Subscribable p) ->
     p = params /\
     trace (fetcher parse JSON_parse JSON_stringify fetch params) = []).
Proof.
  destruct (parse (query params)) as [doc|e0] eqn:Hparse.
  - rewrite (fetcher_by_lookup params doc Hparse).
    destruct (subscription_found (getOperationAST doc (operationName params))).
    + split; [intros e; split; intros H; discriminate|].
      split; [simpl; lia|].
      intros p Hp. unfold duplex, outcome in Hp. simpl in Hp.
      injection Hp as <-. split; reflexivity.
    + split; [intros e; split; intros H; discriminate|].
      split; [unfold transports; simpl; lia|].
      intros p Hp. discriminate.
  - assert (Hfetch : fetcher parse JSON_parse JSON_stringify fetch params =
                     ([], Throw e0)).
    { unfold fetcher, isSubscription. rewrite Hparse. apply bind_lift_throw. }
    rewrite Hfetch.
    split; [intros e; unfold outcome; simpl; split; intros H; congruence|].
    split; [simpl; lia|].
    intros p Hp. discriminate.
Qed.

(** X4.  For a request whose operation is a subscription the fetcher
    touches no transport; a later [subscribe] with an observer that is not
    [null] registers the request once on the duplex channel, with the
    request itself as payload, and issues no stateless request. *)
Theorem subscription_registers_on_subscribe (params : FetcherParams)
    (doc : DocumentNode) (op : DefinitionNode) (args : list JsValue) :
  parse (query params) = Normal doc ->
  getOperationAST doc (operationName params) = Some op ->
  kind op = OperationDefinition OpSubscription ->
  index args 0 <> VNull ->
  fetcher parse JSON_parse JSON_stringify fetch params =
    ([], Normal (Subscribable params)) /\
  exists h,
    subscribe params args =
      ([ClientSubscribe params h], Normal (Unsubscribe params)) /\
    error h = getSinkFromArgs args.
Proof.
  intros Hparse Hlookup Hkind Hobserver.
  split.
  - rewrite (fetcher_by_lookup params doc Hparse), Hlookup.
    unfold subscription_found, operation_is. rewrite Hkind. reflexivity.
  - unfold subscribe, getSinkFromArgs.
    destruct (index args 0) as [| |b|z|s|f|props] eqn:Hfirst;
      try (eexists; split; reflexivity).
    contradiction.
Qed.

(** X5.  On the stateless path the promise the fetcher returns is rejected
    exactly when [fetch] rejects or reading the body rejects, and then with
    that very reason; the request is issued once and not again. *)
Theorem transport_failure_rejects (params : FetcherParams) (b : JsValue)
    (r : JsError) :
  isSubscription parse params = Normal b ->
  truthy b = false ->
  trace (fetcher parse JSON_parse JSON_stringify fetch params) =
    [HttpFetch queryUrl (requestInit JSON_stringify params)] /\
  (outcome (fetcher parse JSON_parse JSON_stringify fetch params) =
     Normal (ResponsePromise (Rejected r)) <->
   fetch queryUrl (requestInit JSON_stringify params) = Rejected r \/
   exists response,
     fetch queryUrl (requestInit JSON_stringify params) = Fulfilled response /\
     text response = Rejected r).
Proof.
  intros Hsub Hfalsy.
  rewrite (fetcher_stateless parse JSON_parse JSON_stringify fetch params b Hsub Hfalsy).
  split; [reflexivity|].
  unfold outcome, responsePromise, then_, onResponse, onResponseBody. simpl.
  destruct (fetch queryUrl (requestInit JSON_stringify params)) as [response|r0].
  - destruct (text response) as [body|r1] eqn:Htext.
    + split.
      * destruct (JSON_parse body); intros H; discriminate.
      * intros [H | [response' [Heq Hrej]]]; [discriminate|].
        injection Heq as <-. rewrite Htext in Hrej. discriminate.
    + split.
      * intros H. right. exists response. split; [reflexivity|]. congruence.
      * intros [H | [response' [Heq Hrej]]]; [discriminate|].
        injection Heq as <-. rewrite Htext in Hrej. congruence.
  - split.
    + intros H. left. congruence.
    + intros [H | [response' [Heq _]]]; [congruence | discriminate].
Qed.

End WithEnvironment.

End DispatchMore.

(** ** The dispatcher on further sample requests *)

Module DispatchMoreExamples.

Import Dispatcher Samples MoreSamples DispatchMore.

Lemma named_request_dispatch_witness :
  sample_parse_more (query (request mixed_text (Some "B"))) = Normal mixed /\
  fetcher sample_parse_more sample_JSON_parse sample_JSON_stringify
          (network structured_body) (request mixed_text (Some "B")) =
    duplex (request mixed_text (Some "B")) /\
  transports (fetcher sample_parse_more sample_JSON_parse sample_JSON_stringify
                (network structured_body) (request mixed_text (Some "A"))) =
    [HttpFetch queryUrl
       (requestInit sample_JSON_stringify (request mixed_text (Some "A")))] /\
  transports (fetcher sample_parse_more sample_JSON_parse sample_JSON_stringify
                (network structured_body) (request mixed_text (Some "Z"))) =
    [HttpFetch queryUrl
       (requestInit sample_JSON_stringify (request mixed_text (Some "Z")))].
Proof.
  assert (Hparse : forall n, sample_parse_more (query (request mixed_text n)) =
                             Normal mixed) by reflexivity.
  split; [apply Hparse|].
  split; [|split].
  - destruct (named_request_dispatch sample_parse_more sample_JSON_parse
                sample_JSON_stringify (network structured_body)
                (request mixed_text (Some "B")) mixed "B" (Hparse _) eq_refl)
      as [_ Hfetch].
    rewrite Hfetch. reflexivity.
  - destruct (named_request_dispatch sample_parse_more sample_JSON_parse
                sample_JSON_stringify (network structured_body)
                (request mixed_text (Some "A")) mixed "A" (Hparse _) eq_refl)
      as [_ Hfetch].
    rewrite Hfetch. reflexivity.
  - destruct (named_request_dispatch sample_parse_more sample_JSON_parse
                sample_JSON_stringify (network structured_body)
                (request mixed_text (Some "Z")) mixed "Z" (Hparse _) eq_refl)
      as [_ Hfetch].
    rewrite Hfetch. reflexivity.
Defined.

Lemma unnamed_request_dispatch_witness :
  sample_parse (query (request one_subscription_text None)) = Normal one_subscription /\
  sample_fetcher structured_body (request one_subscription_text None) =
    duplex (request one_subscription_text None) /\
  transports (sample_fetcher structured_body ambiguous_request) =
    [HttpFetch queryUrl (requestInit sample_JSON_stringify ambiguous_request)].
Proof.
  split; [reflexivity|]. split.
  - unfold sample_fetcher.
    rewrite (unnamed_request_dispatch sample_parse sample_JSON_parse
               sample_JSON_stringify (network structured_body)
               (request one_subscription_text None) one_subscription
               eq_refl eq_refl).
    reflexivity.
  - unfold sample_fetcher.
    rewrite (unnamed_request_dispatch sample_parse sample_JSON_parse
               sample_JSON_stringify (network structured_body)
               ambiguous_request two_operations eq_refl eq_refl).
    reflexivity.
Defined.

Lemma subscription_registers_on_subscribe_witness :
  index observer_positional 0 <> VNull /\
  sample_fetcher structured_body (request one_subscription_text None) =
    ([], Normal (Subscribable (request one_subscription_text None))) /\
  exists h,
    subscribe (request one_subscription_text None) observer_positional =
      ([ClientSubscribe (request one_subscription_text None) h],
       Normal (Unsubscribe (request one_subscription_text None))).
Proof.
  assert (Hobserver : index observer_positional 0 <> VNull) by discriminate.
  destruct (subscription_registers_on_subscribe sample_parse sample_JSON_parse
              sample_JSON_stringify (network structured_body)
              (request one_subscription_text None) one_subscription
              (named OpSubscription "S" 0 20) observer_positional
              eq_refl eq_refl eq_refl Hobserver)
    as [Hfetch [h [Hsubscribe _]]].
  split; [exact Hobserver|]. split; [exact Hfetch|].
  exists h. exact Hsubscribe.
Defined.

Lemma transport_failure_rejects_witness :
  isSubscription sample_parse (request one_query_text None) = Normal (VBool false) /\
  outcome (fetcher sample_parse sample_JSON_parse sample_JSON_stringify
             unreachable (request one_query_text None)) =
    Normal (ResponsePromise (Rejected network_down)).
Proof.
  assert (Hsub : isSubscription sample_parse (request one_query_text None) =
                 Normal (VBool false)) by reflexivity.
  destruct (transport_failure_rejects sample_parse sample_JSON_parse
              sample_JSON_stringify unreachable (request one_query_text None)
              (VBool false) network_down Hsub eq_refl)
    as [_ [_ Hrejected]].
  split; [exact Hsub|].
  apply Hrejected. left. reflexivity.
Defined.

End DispatchMoreExamples.

(** ** The observer: edge cases of [subscribe] and of the delivery *)

Module ObserverMore.

Import Dispatcher Samples MoreSamples.

(** X6.  [subscribe] called with [null] as its first argument throws a
    [TypeError] and registers nothing; with any other first argument, or
    with none at all, it registers the request exactly once and returns a
    handle. *)
Theorem subscribe_throws_on_null_only (params : FetcherParams) (args : list JsValue) :
  match index args 0 with
  | VNull =>
      subscribe params args =
        ([], Throw (TypeError "Cannot read properties of null"))
  | _ =>
      exists h,
        subscribe params args =
          ([ClientSubscribe params h], Normal (Unsubscribe params))
  end.
Proof.
  unfold subscribe, getSinkFromArgs.
  destruct (index args 0) as [| |b|z|s|f|props];
    try reflexivity; eexists; reflexivity.
Qed.

(** X7.  A channel failure that is an [Error], a [CloseEvent] or an array
    of server-reported error objects makes exactly one call of the
    observer's [error] callback, with an [Error], when the sink has a
    function under [error]; otherwise the handler throws a [TypeError] and
    calls nothing, so the failure is not reported to the observer.  (A
    value of another kind is not in [ChannelFailure]; the statement says
    nothing about it.) *)
Theorem failure_calls_error_once_or_throws (h : Handlers) (err : ChannelFailure) :
  match get (error h) "error" with
  | Normal (VFunction f) =>
      exists e, deliver h (Failed err) = ([Invoke f (ArgError e)], Normal tt)
  | Normal _ =>
      deliver h (Failed err) = ([], Throw (TypeError "not a function"))
  | Throw e => deliver h (Failed err) = ([], Throw e)
  end.
Proof.
  simpl. unfold errorHandler.
  destruct (get (error h) "error") as [v|e] eqn:Hget.
  - destruct v; destruct err; try reflexivity; eexists; reflexivity.
  - destruct err; reflexivity.
Qed.

(** An observer given as a single [next] callback: messages reach it, a
    failure of the channel throws inside the handler. *)
Example next_only_observer :
  subscribe (request one_subscription_text None) [VFunction "onNext"] =
    ([ClientSubscribe (request one_subscription_text None) next_only],
     Normal (Unsubscribe (request one_subscription_text None))) /\
  deliver next_only (Message JNull) = ([Invoke "onNext" (ArgResult JNull)], Normal tt) /\
  deliver next_only (Failed (ErrorInstance (new_Error "lost"))) =
    ([], Throw (TypeError "not a function")).
Proof. repeat split; reflexivity. Qed.

(** Handlers whose [next] is the function [f] hand every message to [f],
    in order. *)
Lemma messages_delivered_in_order (h : Handlers) (f : string)
    (results : list JSONValue) :
  next h = VFunction f ->
  deliver_all h (map Message results) =
    (map (fun r => Invoke f (ArgResult r)) results, Normal tt).
Proof.
  intros Hnext.
  induction results as [|r rest IH]; [reflexivity|].
  simpl. rewrite IH, Hnext. reflexivity.
Qed.

(** X8.  [subscribe] passes the observer's [next] callback through as it
    is, for an observer given positionally and for one given as an object:
    through the handlers it registers, the messages of the channel reach
    that callback unchanged, one call for each message, in receipt order. *)
Theorem subscribed_next_gets_messages_in_order (params : FetcherParams)
    (f : string) (rest : list JsValue) (props : list (string * JsValue))
    (results : list JSONValue) :
  lookup props "next" = Some (VFunction f) ->
  (exists h,
     subscribe params (VFunction f :: rest) =
       ([ClientSubscribe params h], Normal (Unsubscribe params)) /\
     deliver_all h (map Message results) =
       (map (fun r => Invoke f (ArgResult r)) results, Normal tt)) /\
  (exists h,
     subscribe params (VObject props :: rest) =
       ([ClientSubscribe params h], Normal (Unsubscribe params)) /\
     deliver_all h (map Message results) =
       (map (fun r => Invoke f (ArgResult r)) results, Normal tt)).
Proof.
  intros Hnext. split.
  - eexists. split; [reflexivity|].
    apply messages_delivered_in_order. reflexivity.
  - unfold subscribe, getSinkFromArgs, get. simpl. rewrite Hnext.
    eexists. split; [reflexivity|].
    apply messages_delivered_in_order. reflexivity.
Qed.

Lemma subscribed_next_gets_messages_in_order_witness :
  lookup [("error", VFunction "onError"); ("next", VFunction "onNext");
          ("complete", VFunction "onComplete")] "next" = Some (VFunction "onNext") /\
  (exists h,
     subscribe (request one_subscription_text None) observer_positional =
       ([ClientSubscribe (request one_subscription_text None) h],
        Normal (Unsubscribe (request one_subscription_text None))) /\
     deliver_all h [Message (JNumber 1); Message (JNumber 2); Message (JNumber 3)] =
       ([Invoke "onNext" (ArgResult (JNumber 1));
         Invoke "onNext" (ArgResult (JNumber 2));
         Invoke "onNext" (ArgResult (JNumber 3))], Normal tt)) /\
  (exists h,
     subscribe (request one_subscription_text None) [observer_object] =
       ([ClientSubscribe (request one_subscription_text None) h],
        Normal (Unsubscribe (request one_subscription_text None))) /\
     deliver_all h [Message (JNumber 1); Message (JNumber 2); Message (JNumber 3)] =
       ([Invoke "onNext" (ArgResult (JNumber 1));
         Invoke "onNext" (ArgResult (JNumber 2));
         Invoke "onNext" (ArgResult (JNumber 3))], Normal tt)).
Proof.
  split; [reflexivity|].
  exact (subscribed_next_gets_messages_in_order
           (request one_subscription_text None) "onNext"
           [VFunction "onComplete"; VFunction "onError"]
           [("error", VFunction "onError"); ("next", VFunction "onNext");
            ("complete", VFunction "onComplete")]
           [JNumber 1; JNumber 2; JNumber 3] eq_refl).
Defined.

Lemma prefix_app_l (x s t : string) :
  String.prefix x s = true -> String.prefix x (s ++ t)%string = true.
Proof.
  revert s. induction x as [|c x IH]; intros s Hprefix.
  - destruct (s ++ t)%string; reflexivity.
  - destruct s as [|d s]; [discriminate|].
    simpl in Hprefix |- *. destruct (ascii_dec c d); [|discriminate].
    apply IH. exact Hprefix.
Qed.

Lemma includes_app_l (s t x : string) :
  includes s x = true -> includes (s ++ t)%string x = true.
Proof.
  induction s as [|c s IH]; intros Hin.
  - simpl in Hin. rewrite orb_false_r in Hin.
    destruct x; [|discriminate].
    destruct t; reflexivity.
  - cbn [includes] in Hin. apply orb_true_iff in Hin.
    change (String c s ++ t)%string with (String c (s ++ t)%string).
    cbn [includes]. apply orb_true_iff.
    destruct Hin as [Hprefix | Hrest].
    + left. apply (prefix_app_l x (String c s) t Hprefix).
    + right. apply IH. exact Hrest.
Qed.

Lemma includes_app_r (s t x : string) :
  includes t x = true -> includes (s ++ t)%string x = true.
Proof.
  intros Hin. induction s as [|c s IH]; [exact Hin|].
  change (String c s ++ t)%string with (String c (s ++ t)%string).
  cbn [includes]. rewrite IH. apply orb_true_r.
Qed.

Lemma prefix_refl (s : string) : String.prefix s s = true.
Proof.
  induction s as [|c s IH]; [reflexivity|].
  simpl. destruct (ascii_dec c c); [exact IH | congruence].
Qed.

Lemma includes_self (s : string) : includes s s = true.
Proof.
  destruct s as [|c s]; [reflexivity|].
  cbn [includes]. rewrite prefix_refl. reflexivity.
Qed.

(** A joined text contains each of the texts joined. *)
Lemma joined_message_holds_each (errs : list ErrorObject) (e : ErrorObject) :
  In e errs ->
  includes (join ", " (map message errs)) (message e) = true.
Proof.
  unfold join.
  induction errs as [|a rest IH]; intros Hin; [contradiction|].
  destruct Hin as [-> | Hin].
  - destruct rest as [|b rest]; [apply includes_self|].
    cbn [map String.concat]. apply includes_app_l. apply includes_self.
  - destruct rest as [|b rest]; [contradiction|].
    change (String.concat ", " (map message (a :: b :: rest)))
      with (message a ++ ", " ++ String.concat ", " (map message (b :: rest)))%string.
    apply includes_app_r. apply includes_app_r. apply IH. exact Hin.
Qed.

(** X9.  For a sink whose [error] property is the function [f], the error
    handler called with an array of server-reported error objects calls
    [f] once with a new [Error] whose message contains the message of every
    object of the array. *)
Theorem error_array_message_holds_each (sink : JsValue) (f : string)
    (errs : list ErrorObject) :
  get sink "error" = Normal (VFunction f) ->
  exists built,
    errorHandler sink (ErrorArray errs) =
      ([Invoke f (ArgError built)], Normal tt) /\
    Js.name built = "Error" /\
    forall e, In e errs -> includes (Js.message built) (message e) = true.
Proof.
  intros Hget.
  exists (new_Error (join ", " (map message errs))).
  split; [simpl; apply ObserverFacts.forward_to_error; exact Hget|].
  split; [reflexivity|].
  intros e Hin. simpl. apply joined_message_holds_each. exact Hin.
Qed.

Lemma error_array_message_holds_each_witness :
  get observer_object "error" = Normal (VFunction "onError") /\
  exists built,
    errorHandler observer_object
      (ErrorArray [mkErrorObject "not authorised"; mkErrorObject "field x not found"]) =
      ([Invoke "onError" (ArgError built)], Normal tt) /\
    includes (Js.message built) "not authorised" = true /\
    includes (Js.message built) "field x not found" = true.
Proof.
  assert (Hget : get observer_object "error" = Normal (VFunction "onError"))
    by reflexivity.
  destruct (error_array_message_holds_each observer_object "onError"
              [mkErrorObject "not authorised"; mkErrorObject "field x not found"]
              Hget)
    as [built [Hcall [_ Heach]]].
  split; [exact Hget|].
  exists built. split; [exact Hcall|]. split.
  - apply (Heach (mkErrorObject "not authorised")). left. reflexivity.
  - apply (Heach (mkErrorObject "field x not found")). right. left. reflexivity.
Defined.

(** The edge cases of the join. *)
Example joined_message_edges :
  join ", " (map message []) = "" /\
  join ", " (map message [mkErrorObject "only"]) = "only" /\
  join ", " (map message [mkErrorObject "a"; mkErrorObject "b"]) = "a, b".
Proof. repeat split; reflexivity. Qed.

End ObserverMore.

(** ** The resolver: the DOM, the token and the spans *)

Module ResolverMore.

Import Resolver Samples MoreSamples ResolverFacts.

Lemma diagnostics_not_dom {A : Type} (l : list A) :
  filter is_dom (map (fun _ => missing_location) l) = [].
Proof.
  induction l as [|a rest IH]; [reflexivity | exact IH].
Qed.

(** Two definitions that are apart cannot both contain a position that is
    not empty. *)
Lemma apart_not_both (position : Span) (a b : DefinitionNode) :
  (start position < end_ position)%Z ->
  apart a b ->
  contains position a = true -> contains position b = true -> False.
Proof.
  intros Hposition Hapart Ha Hb.
  destruct (contains_spans position a Ha) as [la [Hla [Hsa Hea]]].
  destruct (contains_spans position b Hb) as [lb [Hlb [Hsb Heb]]].
  unfold apart in Hapart. rewrite Hla, Hlb in Hapart. lia.
Qed.

(** The strings [operationKind] takes. *)
Lemma operationKind_known (def : DefinitionNode) :
  In (operationKind def) kind_strings.
Proof.
  unfold operationKind, kind_strings.
  destruct (kind def) as [[| |]| |k]; simpl; tauto.
Qed.

(** X12.  In a document whose definitions have pairwise disjoint spans, a
    definition that contains a non-empty position is the one the scan
    returns, wherever it stands in the document: the result does not depend
    on the order of the definitions. *)
Theorem disjoint_spans_unique_match (defs : list DefinitionNode)
    (position : Span) (def : DefinitionNode) :
  ForallOrdPairs apart defs ->
  (start position < end_ position)%Z ->
  In def defs ->
  contains position def = true ->
  outcome (find defs (containsPosition position)) = Normal (Some def).
Proof.
  intros Hapart Hposition Hin Hcontains.
  rewrite find_spec. unfold outcome. simpl. f_equal.
  induction Hapart as [|a rest Hfirst Hrest IH]; [contradiction|].
  simpl. destruct (contains position a) eqn:Ha.
  - destruct Hin as [-> | Hin]; [reflexivity|].
    exfalso. apply (apart_not_both position a def Hposition); try assumption.
    rewrite Forall_forall in Hfirst. apply Hfirst. exact Hin.
  - destruct Hin as [-> | Hin]; [congruence|].
    apply IH. exact Hin.
Qed.

(** X13.  Two definitions get the same selector only if they get the same
    pair of kind and name: no two pairs are mapped to one selector. *)
Theorem selector_injective (d1 d2 : DefinitionNode) :
  selector d1 = selector d2 -> identifier d1 = identifier d2.
Proof.
  unfold selector, identifier.
  pose proof (operationKind_known d1) as H1.
  pose proof (operationKind_known d2) as H2.
  generalize dependent (operationName d2). generalize dependent (operationName d1).
  generalize dependent (operationKind d2). generalize dependent (operationKind d1).
  intros k1 H1 k2 H2 n1 n2 Heq.
  unfold kind_strings in H1, H2. simpl in H1, H2.
  destruct H1 as [<- | [<- | [<- | [<- | [<- | []]]]]];
    destruct H2 as [<- | [<- | [<- | [<- | [<- | []]]]]];
    simpl in Heq; try discriminate; congruence.
Qed.

Section WithEnvironment.

Variable parse : string -> Completion DocumentNode.
Variable getTokenAt : Pos -> Span.
Variable indexFromPos : Pos -> Z.
Variable querySelector : string -> bool.

(** X10.  The handler touches the DOM only after it found a definition:
    it then looks up the selector of that definition once and scrolls only
    if an element matched.  On a parse failure and on a miss it makes no
    DOM call, and it returns [null] exactly on a miss. *)
Theorem dom_touched_only_when_found (state_query : string) (mousePos : Pos) :
  match parse (if truthy_string state_query then state_query else "") with
  | Throw e =>
      filter is_dom
        (trace (_handleInspectOperation parse getTokenAt indexFromPos
                  querySelector state_query mousePos)) = []
  | Normal doc =>
      match List.find (contains (relevantMousePos getTokenAt indexFromPos mousePos))
                      (definitions doc) with
      | Some def =>
          filter is_dom
            (trace (_handleInspectOperation parse getTokenAt indexFromPos
                      querySelector state_query mousePos)) =
            QuerySelector (selector def) ::
            (if querySelector (selector def)
             then [ScrollIntoView (selector def)] else []) /\
          outcome (_handleInspectOperation parse getTokenAt indexFromPos
                     querySelector state_query mousePos) = Normal VUndefined
      | None =>
          filter is_dom
            (trace (_handleInspectOperation parse getTokenAt indexFromPos
                      querySelector state_query mousePos)) = [] /\
          outcome (_handleInspectOperation parse getTokenAt indexFromPos
                     querySelector state_query mousePos) = Normal VNull
      end
  end.
Proof.
  destruct (parse (if truthy_string state_query then state_query else ""))
    as [doc|e] eqn:Hparse.
  - rewrite (handler_after_parse parse getTokenAt indexFromPos querySelector
               state_query mousePos doc Hparse).
    unfold trace, outcome. simpl.
    rewrite filter_app, diagnostics_not_dom. simpl.
    destruct (List.find _ (definitions doc)) as [def|].
    + split; [|reflexivity]. simpl.
      destruct (querySelector (selector def)); reflexivity.
    + split; reflexivity.
  - unfold _handleInspectOperation. rewrite Hparse. reflexivity.
Qed.

(** X11.  What a click does depends on the line and on the token under
    it only: two clicks on the same line that fall on the same token have
    the same effects and the same result. *)
Theorem same_token_same_result (state_query : string) (p1 p2 : Pos) :
  line p1 = line p2 ->
  getTokenAt p1 = getTokenAt p2 ->
  _handleInspectOperation parse getTokenAt indexFromPos querySelector
      state_query p1 =
  _handleInspectOperation parse getTokenAt indexFromPos querySelector
      state_query p2.
Proof.
  intros Hline Htoken.
  unfold _handleInspectOperation, relevantMousePos.
  rewrite Hline, Htoken. reflexivity.
Qed.

End WithEnvironment.

Lemma disjoint_spans_unique_match_witness :
  ForallOrdPairs apart (definitions two_operations) /\
  outcome (find (definitions two_operations)
             (containsPosition {| start := 25; end_ := 30 |})) =
    Normal (Some (named OpQuery "B" 21 40)).
Proof.
  assert (Hapart : ForallOrdPairs apart (definitions two_operations)).
  { repeat constructor. simpl. unfold apart. simpl. lia. }
  split; [exact Hapart|].
  apply (disjoint_spans_unique_match (definitions two_operations)
           {| start := 25; end_ := 30 |} (named OpQuery "B" 21 40) Hapart).
  - simpl. lia.
  - right. left. reflexivity.
  - reflexivity.
Defined.

Lemma selector_injective_witness :
  identifier anonymous_query =
  identifier (named OpQuery "unknown" 0 10).
Proof.
  apply (selector_injective anonymous_query (named OpQuery "unknown" 0 10)).
  reflexivity.
Defined.

Lemma same_token_same_result_witness :
  sample_handler two_operations_text click =
  sample_handler two_operations_text {| line := 0; ch := 29 |}.
Proof.
  apply (same_token_same_result sample_parse sample_getTokenAt
           sample_indexFromPos sample_querySelector two_operations_text
           click {| line := 0; ch := 29 |}); reflexivity.
Defined.

End ResolverMore.

(** ** The component: its handlers and its mounting *)

Module AppFacts.

Import Dispatcher Samples MoreSamples App.

(** X14.  Toggling the explorer twice gives the state back; editing the
    query and toggling the explorer commute; of two edits the later one
    wins; and neither handler touches the schema. *)
Theorem handlers_compose (s : State) (q q' : string) :
  _handleToggleExplorer (_handleToggleExplorer s) = s /\
  _handleEditQuery q (_handleToggleExplorer s) =
    _handleToggleExplorer (_handleEditQuery q s) /\
  _handleEditQuery q (_handleEditQuery q' s) = _handleEditQuery q s /\
  schema (_handleToggleExplorer s) = schema s /\
  schema (_handleEditQuery q s) = schema s.
Proof.
  destruct s as [sch qu open].
  unfold _handleToggleExplorer, _handleEditQuery, setState. simpl.
  rewrite negb_involutive. repeat split.
Qed.

Section WithEnvironment.

Variable parse : string -> Completion DocumentNode.
Variable JSON_parse : string -> Completion JSONValue.
Variable JSON_stringify : FetcherParams -> string.
Variable fetch : string -> RequestInit -> Promise Response.
Variable introspectionQuery : string.
Variable buildClientSchema : option JSONValue -> Completion GraphQLSchema.

(** X15.  Unless the introspection request is answered with a fulfilled
    promise, mounting leaves the component as it was: no key is bound and
    the state is untouched, whether the fetcher threw, returned a
    subscribable or returned a promise that got rejected. *)
Theorem mount_without_response_changes_nothing (c : Component) :
  (forall result,
     outcome (fetcher parse JSON_parse JSON_stringify fetch
                (introspectionParams introspectionQuery)) <>
     Normal (ResponsePromise (Fulfilled result))) ->
  component (componentDidMount parse JSON_parse JSON_stringify fetch
               introspectionQuery buildClientSchema c) = c /\
  settled (componentDidMount parse JSON_parse JSON_stringify fetch
             introspectionQuery buildClientSchema c) <> Normal (Fulfilled tt).
Proof.
  intros Hnone. unfold componentDidMount.
  destruct (fetcher parse JSON_parse JSON_stringify fetch
              (introspectionParams introspectionQuery)) as [t [[p | [result | r]] | e]];
    simpl; try (split; [reflexivity | discriminate]).
  exfalso. apply (Hnone result). reflexivity.
Qed.

(** X16.  Once the introspection request is answered, the editor has the
    inspect handler bound to Shift-Alt-LeftClick and every other key bound
    as before, whatever becomes of the schema; the query text and the
    explorer flag of the state are as before. *)
Theorem mount_binds_inspect_key (c : Component) (t : list Effect)
    (result : JSONValue) :
  fetcher parse JSON_parse JSON_stringify fetch
    (introspectionParams introspectionQuery) =
    (t, Normal (ResponsePromise (Fulfilled result))) ->
  exists keys,
    extraKeys (component (componentDidMount parse JSON_parse JSON_stringify fetch
                            introspectionQuery buildClientSchema c)) = Some keys /\
    keys "Shift-Alt-LeftClick" = Some "_handleInspectOperation" /\
    (forall k, String.eqb k "Shift-Alt-LeftClick" = false ->
               keys k = match extraKeys c with
                        | Some old => old k
                        | None => None
                        end) /\
    query (state (component (componentDidMount parse JSON_parse JSON_stringify
                               fetch introspectionQuery buildClientSchema c))) =
      query (state c) /\
    explorerIsOpen (state (component (componentDidMount parse JSON_parse
                                        JSON_stringify fetch introspectionQuery
                                        buildClientSchema c))) =
      explorerIsOpen (state c).
Proof.
  intros Hfetch. unfold componentDidMount. rewrite Hfetch.
  exists (spread_with (match extraKeys c with
                       | Some k => k
                       | None => empty_keymap
                       end) "Shift-Alt-LeftClick" "_handleInspectOperation").
  unfold onIntrospection.
  assert (Hother : forall k, String.eqb k "Shift-Alt-LeftClick" = false ->
            spread_with (match extraKeys c with
                         | Some k0 => k0
                         | None => empty_keymap
                         end) "Shift-Alt-LeftClick" "_handleInspectOperation" k =
            match extraKeys c with
            | Some old => old k
            | None => None
            end).
  { intros k Hk. unfold spread_with. rewrite Hk.
    destruct (extraKeys c); reflexivity. }
  destruct (get_data result) as [data|e]; [|simpl; auto].
  destruct (buildClientSchema data) as [s|e]; simpl; auto.
Qed.

(** X17.  Once the introspection request is answered with [result], the
    schema of the state is the one [buildClientSchema] returns for
    [result.data], and the promise of the mounting is fulfilled; when
    reading [result.data] throws ([result] is [null]) or
    [buildClientSchema] throws, the schema stays as it was and the promise
    is rejected with that error. *)
Theorem mount_sets_schema_when_built (c : Component) (t : list Effect)
    (result : JSONValue) :
  fetcher parse JSON_parse JSON_stringify fetch
    (introspectionParams introspectionQuery) =
    (t, Normal (ResponsePromise (Fulfilled result))) ->
  match get_data result with
  | Normal data =>
      match buildClientSchema data with
      | Normal s =>
          schema (state (component (componentDidMount parse JSON_parse
                                      JSON_stringify fetch introspectionQuery
                                      buildClientSchema c))) = Some s /\
          settled (componentDidMount parse JSON_parse JSON_stringify fetch
                     introspectionQuery buildClientSchema c) = Normal (Fulfilled tt)
      | Throw e =>
          schema (state (component (componentDidMount parse JSON_parse
                                      JSON_stringify fetch introspectionQuery
                                      buildClientSchema c))) = schema (state c) /\
          settled (componentDidMount parse JSON_parse JSON_stringify fetch
                     introspectionQuery buildClientSchema c) = Normal (Rejected e)
      end
  | Throw e =>
      schema (state (component (componentDidMount parse JSON_parse
                                  JSON_stringify fetch introspectionQuery
                                  buildClientSchema c))) = schema (state c) /\
      settled (componentDidMount parse JSON_parse JSON_stringify fetch
                 introspectionQuery buildClientSchema c) = Normal (Rejected e)
  end.
Proof.
  intros Hfetch. unfold componentDidMount. rewrite Hfetch.
  unfold onIntrospection.
  destruct (get_data result) as [data|e]; [|split; reflexivity].
  destruct (buildClientSchema data) as [s|e]; split; reflexivity.
Qed.

(** X18.  When the body of the introspection response is not JSON, the
    fetcher hands the raw text on, its [data] is [undefined], and the
    schema is whatever [buildClientSchema] makes of [undefined]: if it
    throws, the state keeps its schema while the inspect key is bound all
    the same. *)
Theorem mount_on_raw_text (c : Component) (b : JsValue) (response : Response)
    (responseBody : string) (e e' : JsError) :
  isSubscription parse (introspectionParams introspectionQuery) = Normal b ->
  truthy b = false ->
  fetch queryUrl (requestInit JSON_stringify (introspectionParams introspectionQuery)) =
    Fulfilled response ->
  text response = Fulfilled responseBody ->
  JSON_parse responseBody = Throw e ->
  buildClientSchema None = Throw e' ->
  componentDidMount parse JSON_parse JSON_stringify fetch introspectionQuery
    buildClientSchema c =
    {| requests := [HttpFetch queryUrl
                      (requestInit JSON_stringify
                         (introspectionParams introspectionQuery))];
       component :=
         {| state := state c;
            extraKeys := Some (spread_with
                                 match extraKeys c with
                                 | Some k => k
                                 | None => empty_keymap
                                 end
                                 "Shift-Alt-LeftClick" "_handleInspectOperation") |};
       settled := Normal (Rejected e') |}.
Proof.
  intros Hsub Hfalsy Hfetch Htext Hjson Hbuild.
  unfold componentDidMount.
  rewrite (DispatchFacts.fetcher_stateless parse JSON_parse JSON_stringify fetch
             _ b Hsub Hfalsy).
  unfold responsePromise. rewrite Hfetch.
  unfold then_, onResponse. rewrite Htext.
  unfold onResponseBody. rewrite Hjson.
  unfold onIntrospection, get_data. rewrite Hbuild. reflexivity.
Qed.

End WithEnvironment.

Lemma mount_without_response_changes_nothing_witness :
  component (componentDidMount sample_parse sample_JSON_parse
               sample_JSON_stringify unreachable one_query_text
               sample_buildClientSchema fresh_component) = fresh_component.
Proof.
  apply (mount_without_response_changes_nothing sample_parse sample_JSON_parse
           sample_JSON_stringify unreachable one_query_text
           sample_buildClientSchema fresh_component).
  intros result. vm_compute. discriminate.
Defined.

Lemma mount_binds_inspect_key_witness :
  exists keys,
    extraKeys (component (sample_mount structured_body)) = Some keys /\
    keys "Shift-Alt-LeftClick" = Some "_handleInspectOperation" /\
    keys "Ctrl-Space" = Some "autocomplete".
Proof.
  destruct (mount_binds_inspect_key sample_parse sample_JSON_parse
              sample_JSON_stringify (network structured_body) one_query_text
              sample_buildClientSchema fresh_component _ structured_value eq_refl)
    as [keys [Hkeys [Hinspect [Hother _]]]].
  exists keys. split; [exact Hkeys|]. split; [exact Hinspect|].
  rewrite (Hother "Ctrl-Space" eq_refl). reflexivity.
Defined.

Lemma mount_sets_schema_when_built_witness :
  schema (state (component (sample_mount structured_body))) =
    Some (ClientSchema (JObject [("x", JNumber 1)])) /\
  settled (sample_mount structured_body) = Normal (Fulfilled tt).
Proof.
  exact (mount_sets_schema_when_built sample_parse sample_JSON_parse
           sample_JSON_stringify (network structured_body) one_query_text
           sample_buildClientSchema fresh_component _ structured_value eq_refl).
Defined.

Lemma mount_on_raw_text_witness :
  schema (state (component (sample_mount raw_body))) = None /\
  exists keys,
    extraKeys (component (sample_mount raw_body)) = Some keys /\
    keys "Shift-Alt-LeftClick" = Some "_handleInspectOperation".
Proof.
  unfold sample_mount.
  rewrite (mount_on_raw_text sample_parse sample_JSON_parse sample_JSON_stringify
             (network raw_body) one_query_text sample_buildClientSchema
             fresh_component (VBool false) {| text := Fulfilled raw_body |}
             raw_body json_syntax_error
             {| Js.name := "Error";
                Js.message := "Invalid or incomplete introspection result." |}
             eq_refl eq_refl eq_refl eq_refl eq_refl eq_refl).
  split; [reflexivity|].
  eexists. split; reflexivity.
Defined.

End AppFacts.
